(** * Gutendex client: response models and the paginated generator

    A shallow embedding of [main.py]: the three pydantic models
    ([Person], [Book], [ListBooksResponse]) with the validation that
    [parse_obj] runs on a decoded JSON body, their [dict()] serialisation,
    and the generator [Gutendex.list_of_books] as a state machine over an
    HTTP server.

    Data model.  [r.json()] hands the program Python objects; they are
    modelled by [pyobj].  Numbers are integers: a JSON number with a
    fraction or an exponent (a Python [float]) is outside this model.  A
    Python [dict] with string keys is a [gmap string pyobj], so two
    dictionaries are equal exactly when they agree on every key, whatever
    the order in which the keys were written.  Text is [string]. *)

From stdpp Require Import base option list gmap strings fin_maps pretty.
From Stdlib Require Import ZArith Ascii.

#[warnings="-register-all"] Inductive pyobj :=
| PNone
| PBool (b : bool)
| PInt (z : Z)
| PStr (s : string)
| PList (l : list pyobj)
| PDict (d : gmap string pyobj).

(** Python truthiness of an [Optional[str]]: [None] and the empty string
    are falsy. *)
Definition truthy (u : option string) : bool :=
  match u with
  | None => false
  | Some EmptyString => false
  | Some (String _ _) => true
  end.

(** ** The validation library

    The models delegate the check of a scalar to the validator that
    pydantic registers for the annotated type.  The validators are library
    code; the development is parametric in them.  A validator returns
    [None] where the library raises. *)
Class Validators := {
  int_validator : pyobj → option Z;
  str_validator : pyobj → option string;
  bool_validator : pyobj → option bool;
  (** [dict(v)] for a value [v] that is not already a [dict] *)
  dict_of : pyobj → option (gmap string pyobj);
}.

(** What the theorems below rely on: a value that already has the
    annotated type passes through unchanged. *)
Class Lawful (V : Validators) : Prop := {
  int_validator_int z : int_validator (PInt z) = Some z;
  str_validator_str s : str_validator (PStr s) = Some s;
  bool_validator_bool b : bool_validator (PBool b) = Some b;
}.

(** *** Field validation ([ModelField.validate], [validate_model]) *)
Section fields.
Context `{Validators}.

(** [dict_validator]: a dict is returned as it is, anything else goes
    through [dict(v)]. *)
Definition dict_validator (v : pyobj) : option (gmap string pyobj) :=
  match v with
  | PDict d => Some d
  | _ => dict_of v
  end.

(** A field whose annotation is not [Optional]: [None] is not an allowed
    value, any other value goes to the validator. *)
Definition singleton {A} (validator : pyobj → option A) (v : pyobj) : option A :=
  match v with
  | PNone => None
  | _ => validator v
  end.

(** An [Optional[...]] field: [None] is kept. *)
Definition allow_none {A} (validator : pyobj → option A) (v : pyobj)
  : option (option A) :=
  match v with
  | PNone => Some None
  | _ => Some <$> validator v
  end.

(** A [list[...]] field: the value must be a list, every item is
    validated as a field of the item type. *)
Definition sequence_like {A} (validator : pyobj → option A) (v : pyobj)
  : option (list A) :=
  match v with
  | PList l => mapM (singleton validator) l
  | _ => None
  end.

(** A required field must be present in the input. *)
Definition required {A} (validate : pyobj → option A)
    (input_data : gmap string pyobj) (name : string) : option A :=
  match input_data !! name with
  | None => None
  | Some v => validate v
  end.

(** An [Optional] field without a default is not required: when the key
    is missing the field takes the default [None]. *)
Definition not_required {A} (validate : pyobj → option (option A))
    (input_data : gmap string pyobj) (name : string) : option (option A) :=
  match input_data !! name with
  | None => Some None
  | Some v => validate v
  end.

(** A model used as a field type, and [parse_obj]: a dict gives the
    keyword arguments, any other value is first converted with
    [dict(v)]. *)
Definition model {A} (validate_model : gmap string pyobj → option A)
    (v : pyobj) : option A :=
  d ← dict_validator v; validate_model d.
End fields.

(** Serialisation of an optional value: [None] is written as [null]. *)
Definition opt {A} (f : A → pyobj) (o : option A) : pyobj :=
  from_option f PNone o.

(** ** class Person *)
Module Person.
Record t := mk {
  birth_year : option Z;
  death_year : option Z;
  name : string;
}.

Section validation.
Context `{Validators}.

Definition validate_model (input_data : gmap string pyobj) : option t :=
  b ← not_required (allow_none int_validator) input_data "birth_year";
  d ← not_required (allow_none int_validator) input_data "death_year";
  n ← required (singleton str_validator) input_data "name";
  Some (mk b d n).

Definition validate : pyobj → option t := model validate_model.
Definition parse_obj : pyobj → option t := model validate_model.
End validation.

(** [p.dict()]; [p.json()] writes this dictionary as a JSON object. *)
Definition dict (p : t) : gmap string pyobj :=
  <["birth_year" := opt PInt (birth_year p)]>
 (<["death_year" := opt PInt (death_year p)]>
 (<["name" := PStr (name p)]> ∅)).
Definition json (p : t) : pyobj := PDict (dict p).
End Person.

(** ** class Book *)
Module Book.
Record t := mk {
  id : Z;
  title : string;
  subjects : list string;
  authors : list Person.t;
  translators : list Person.t;
  bookshelves : list string;
  languages : list string;
  copyright : option bool;
  media_type : string;
  formats : gmap string pyobj;
  download_count : Z;
}.

Section validation.
Context `{Validators}.

Definition validate_model (input_data : gmap string pyobj) : option t :=
  i ← required (singleton int_validator) input_data "id";
  ti ← required (singleton str_validator) input_data "title";
  su ← required (sequence_like str_validator) input_data "subjects";
  au ← required (sequence_like Person.validate) input_data "authors";
  tr ← required (sequence_like Person.validate) input_data "translators";
  bo ← required (sequence_like str_validator) input_data "bookshelves";
  la ← required (sequence_like str_validator) input_data "languages";
  co ← not_required (allow_none bool_validator) input_data "copyright";
  me ← required (singleton str_validator) input_data "media_type";
  fo ← required (singleton dict_validator) input_data "formats";
  dc ← required (singleton int_validator) input_data "download_count";
  Some (mk i ti su au tr bo la co me fo dc).

Definition validate : pyobj → option t := model validate_model.
Definition parse_obj : pyobj → option t := model validate_model.
End validation.

Definition dict (b : t) : gmap string pyobj :=
  <["id" := PInt (id b)]>
 (<["title" := PStr (title b)]>
 (<["subjects" := PList (PStr <$> subjects b)]>
 (<["authors" := PList (Person.json <$> authors b)]>
 (<["translators" := PList (Person.json <$> translators b)]>
 (<["bookshelves" := PList (PStr <$> bookshelves b)]>
 (<["languages" := PList (PStr <$> languages b)]>
 (<["copyright" := opt PBool (copyright b)]>
 (<["media_type" := PStr (media_type b)]>
 (<["formats" := PDict (formats b)]>
 (<["download_count" := PInt (download_count b)]> ∅)))))))))).
Definition json (b : t) : pyobj := PDict (dict b).
End Book.

(** ** class ListBooksResponse *)
Module ListBooksResponse.
Record t := mk {
  count : Z;
  next : option string;
  previous : option string;
  results : list Book.t;
}.

Section validation.
Context `{Validators}.

Definition validate_model (input_data : gmap string pyobj) : option t :=
  c ← required (singleton int_validator) input_data "count";
  n ← not_required (allow_none str_validator) input_data "next";
  p ← not_required (allow_none str_validator) input_data "previous";
  r ← required (sequence_like Book.validate) input_data "results";
  Some (mk c n p r).

Definition parse_obj : pyobj → option t := model validate_model.
End validation.

Definition dict (p : t) : gmap string pyobj :=
  <["count" := PInt (count p)]>
 (<["next" := opt PStr (next p)]>
 (<["previous" := opt PStr (previous p)]>
 (<["results" := PList (Book.json <$> results p)]> ∅))).
Definition json (p : t) : pyobj := PDict (dict p).
End ListBooksResponse.

(** ** The validators of pydantic 1.x

    [main.py] calls [parse_obj] and declares a [__root__] model, the API
    of pydantic 1.x, whose validators convert where they can.  This
    instance follows [pydantic/validators.py] on the values of [pyobj],
    for ASCII text.  [dict(v)] is modelled for a list of pairs with
    string keys (a pair being a two-item list or a two-character string)
    and for the empty string; a pair list with keys of another type builds
    a dictionary that [pyobj] does not represent and is refused here. *)
Module V1.
Definition is_space (c : ascii) : bool :=
  let n := Ascii.nat_of_ascii c in
  ((9 <=? n)%nat && (n <=? 13)%nat) || ((28 <=? n)%nat && (n <=? 32)%nat).

Fixpoint lstrip (s : string) : string :=
  match s with
  | String c rest => if is_space c then lstrip rest else s
  | EmptyString => EmptyString
  end.

Definition strip (s : string) : string :=
  String.rev (lstrip (String.rev (lstrip s))).

Definition digit (c : ascii) : option Z :=
  let n := Ascii.nat_of_ascii c in
  if ((48 <=? n)%nat && (n <=? 57)%nat)%bool
  then Some (Z.of_nat (n - 48)) else None.

(** Decimal digits, single underscores allowed between two digits. *)
Fixpoint digits (acc : Z) (after_digit : bool) (s : string) : option Z :=
  match s with
  | EmptyString => if after_digit then Some acc else None
  | String c rest =>
      if Ascii.eqb c "_"
      then (if after_digit then digits acc false rest else None)
      else match digit c with
           | Some d => digits (10 * acc + d)%Z true rest
           | None => None
           end
  end.

(** Python's [int(s)] on a string. *)
Definition int_of_str (s : string) : option Z :=
  match strip s with
  | String "-" rest => Z.opp <$> digits 0 false rest
  | String "+" rest => digits 0 false rest
  | rest => digits 0 false rest
  end.

Definition max_str_int : nat := 4300.

Definition int_validator (v : pyobj) : option Z :=
  match v with
  | PInt z => Some z
  | PBool b => Some (if b then 1 else 0)%Z
  | PStr s => if (max_str_int <? String.length s)%nat then None else int_of_str s
  | _ => None
  end.

(** Python's [str(v)] on an [int] and on a [bool]. *)
Definition str_validator (v : pyobj) : option string :=
  match v with
  | PStr s => Some s
  | PInt z => Some (pretty z)
  | PBool b => Some (if b then "True" else "False")
  | _ => None
  end.

Definition lower_ascii (c : ascii) : ascii :=
  let n := Ascii.nat_of_ascii c in
  if ((65 <=? n)%nat && (n <=? 90)%nat)%bool
  then Ascii.ascii_of_nat (n + 32) else c.

Fixpoint lower (s : string) : string :=
  match s with
  | String c rest => String (lower_ascii c) (lower rest)
  | EmptyString => EmptyString
  end.

Definition BOOL_FALSE : list string := ["0"; "off"; "f"; "false"; "n"; "no"].
Definition BOOL_TRUE : list string := ["1"; "on"; "t"; "true"; "y"; "yes"].

Definition bool_validator (v : pyobj) : option bool :=
  match v with
  | PBool b => Some b
  | PInt 1 => Some true
  | PInt 0 => Some false
  | PStr s =>
      if bool_decide (lower s ∈ BOOL_TRUE) then Some true
      else if bool_decide (lower s ∈ BOOL_FALSE) then Some false
      else None
  | _ => None
  end.

Definition is_ascii (c : ascii) : bool := (Ascii.nat_of_ascii c <? 128)%nat.

(** One item of the sequence given to [dict(...)]. *)
Definition pair (item : pyobj) : option (string * pyobj) :=
  match item with
  | PList [PStr k; v] => Some (k, v)
  | PStr (String a (String b EmptyString)) =>
      if is_ascii a && is_ascii b
      then Some (String a EmptyString, PStr (String b EmptyString))
      else None
  | _ => None
  end.

(** A later pair overwrites an earlier one with the same key. *)
Definition dict_of (v : pyobj) : option (gmap string pyobj) :=
  match v with
  | PDict d => Some d
  | PList l => ps ← mapM pair l; Some (list_to_map (reverse ps))
  | PStr EmptyString => Some ∅
  | _ => None
  end.
End V1.

#[global] Instance v1 : Validators := {|
  int_validator := V1.int_validator;
  str_validator := V1.str_validator;
  bool_validator := V1.bool_validator;
  dict_of := V1.dict_of;
|}.

(** ** The HTTP layer ([requests]) *)
Record Request := GET {
  url : string;
  (** [None] is Python's [params=None] *)
  params : option (gmap string pyobj);
}.

Module Response.
Record t := mk {
  status_code : Z;
  (** what [r.json()] returns; [None] when the body is not JSON *)
  json : option pyobj;
}.

(** [true] when [r.raise_for_status()] raises: a 4xx or a 5xx status. *)
Definition raise_for_status (r : t) : bool :=
  ((400 <=? status_code r) && (status_code r <? 600))%Z.
End Response.

Inductive exn :=
| RequestException
| HTTPError (response : Response.t)
| JSONDecodeError
| ValidationError.

(** The server as the session sees it: the answer to the [n]-th request
    of the traversal ([n] counts from 0); [None] when [session.get] itself
    raises. *)
Definition Server := nat → Request → option Response.t.

(** ** class Gutendex *)
Module Gutendex.
Definition endpoint : string := "https://gutendex.com/books/".

(** Where the body of the generator stands: at the top of [while True],
    about to call [session.get(url, params)]; inside
    [yield from response.results] with [rest] still to yield and
    [response.next] kept for line 101; or after the body has returned or
    raised. *)
Inductive pc :=
| AtGet (url : string) (params : option (gmap string pyobj))
| AtYield (rest : list Book.t) (next_url : option string)
| Returned.

(** The generator object, with the requests it has issued so far. *)
Record gen := Gen {
  at_ : pc;
  sent : list Request;
}.

(** What a call of [next()] can end with. *)
Inductive signal :=
| Yielded (b : Book.t)
| StopIteration
| Raised (e : exn).

(** Why the caller stopped: it has the records it wanted; the generator
    raised [StopIteration]; the generator raised [e]; or the fuel is spent
    while the generator is still running. *)
Inductive outcome :=
| Taken
| Exhausted
| Failed (e : exn)
| Pending.

(** [close()] of a suspended generator: the [with Session()] block is
    left, no request is made. *)
Definition close (g : gen) : gen := Gen Returned (sent g).

Section list_of_books.
Context `{Validators} (session_get : Server).

(** One pass through lines 92-96: the request, [raise_for_status],
    [r.json()] and [ListBooksResponse.parse_obj]. *)
Definition get_page (n : nat) (req : Request) : exn + ListBooksResponse.t :=
  match session_get n req with
  | None => inl RequestException
  | Some r =>
      if Response.raise_for_status r then inl (HTTPError r)
      else match Response.json r with
           | None => inl JSONDecodeError
           | Some data =>
               match ListBooksResponse.parse_obj data with
               | None => inl ValidationError
               | Some response => inr response
               end
           end
  end.

(** Calling the generator function builds the generator; nothing of
    the body runs before the first [next()]. *)
Definition list_of_books (params : gmap string pyobj) : gen :=
  Gen (AtGet endpoint (Some params)) [].

(** The body resumed for one step.  [None]: the body goes on without
    handing anything to the caller. *)
Definition resume (g : gen) : gen * option signal :=
  match at_ g with
  | AtGet url params =>
      let req := GET url params in
      match get_page (length (sent g)) req with
      | inl e => (Gen Returned (sent g ++ [req]), Some (Raised e))
      | inr response =>
          (Gen (AtYield (ListBooksResponse.results response)
                        (ListBooksResponse.next response))
               (sent g ++ [req]), None)
      end
  | AtYield (b :: rest) next_url =>
      (Gen (AtYield rest next_url) (sent g), Some (Yielded b))
  | AtYield [] next_url =>
      match next_url with
      | Some url =>
          if truthy next_url then (Gen (AtGet url None) (sent g), None)
          else (Gen Returned (sent g), Some StopIteration)
      | None => (Gen Returned (sent g), Some StopIteration)
      end
  | Returned => (g, Some StopIteration)
  end.

(** The caller takes up to [k] records: it calls [next()] while it
    still wants one, and a call resumes the body until it yields,
    returns or raises.  [fuel] bounds the number of resumptions. *)
Fixpoint consume (fuel k : nat) (g : gen) {struct fuel}
  : list Book.t * gen * outcome :=
  match k, fuel with
  | 0, _ => ([], g, Taken)
  | S _, 0 => ([], g, Pending)
  | S k', S fuel' =>
      match resume g with
      | (g', None) => consume fuel' k g'
      | (g', Some (Yielded b)) =>
          let '(bs, g'', o) := consume fuel' k' g' in (b :: bs, g'', o)
      | (g', Some StopIteration) => ([], g', Exhausted)
      | (g', Some (Raised e)) => ([], g', Failed e)
      end
  end.

(** The records of the page that answers the [n]-th request. *)
Definition page_results (n : nat) (req : Request) : list Book.t :=
  match get_page n req with
  | inr response => ListBooksResponse.results response
  | inl _ => []
  end.

(** The records of the pages that answer the requests [reqs], the
    first of which is the [n]-th of the traversal. *)
Fixpoint delivered (n : nat) (reqs : list Request) : list Book.t :=
  match reqs with
  | [] => []
  | req :: reqs' => page_results n req ++ delivered (S n) reqs'
  end.
End list_of_books.
End Gutendex.

(** ** Traversals

    Notions in which the properties of the generator are stated. *)
Section traversal.
Context `{Validators} (session_get : Server).
Import Gutendex.

(** A chain of pages: the [n]-th request [req] is answered by the first
    page, whose [next] is the URL of the following page, and so on; the
    [next] of the last page is [null]. *)
Fixpoint chain (n : nat) (req : Request) (pages : list ListBooksResponse.t)
  : Prop :=
  match pages with
  | [] => False
  | page :: pages' =>
      get_page session_get n req = inr page
      ∧ match pages' with
        | [] => ListBooksResponse.next page = None
        | _ :: _ =>
            ∃ u, ListBooksResponse.next page = Some u
                 ∧ truthy (Some u) = true
                 ∧ chain (S n) (GET u None) pages'
        end
  end.

(** The [n]-th request of a traversal started with [params]: the first
    goes to the endpoint with the parameters of the caller, a later one
    to the [next] of the page before it, without parameters. *)
Definition linked (params0 : gmap string pyobj) (reqs : list Request)
    (n : nat) (req : Request) : Prop :=
  match n with
  | 0 => req = GET endpoint (Some params0)
  | S m =>
      params req = None
      ∧ ∃ prev page,
          reqs !! m = Some prev
          ∧ get_page session_get m prev = inr page
          ∧ ListBooksResponse.next page = Some (url req)
  end.

(** Every request was needed to hand out [m] records: the pages before
    it hold fewer than [m]. *)
Definition needed (m : nat) (reqs : list Request) : Prop :=
  ∀ n req, reqs !! n = Some req →
           length (delivered session_get 0 (take n reqs)) < m.

(** Every request was answered with a page. *)
Definition answered (reqs : list Request) : Prop :=
  ∀ n req, reqs !! n = Some req →
           ∃ page, get_page session_get n req = inr page.

(** A generator that has handed out the records [ys] and has not
    finished. *)
Definition live (params0 : gmap string pyobj) (g : gen) (ys : list Book.t)
  : Prop :=
  answered (sent g)
  ∧ (∀ n req, sent g !! n = Some req → linked params0 (sent g) n req)
  ∧ match at_ g with
    | AtGet u ps =>
        delivered session_get 0 (sent g) = ys
        ∧ linked params0 (sent g) (length (sent g)) (GET u ps)
    | AtYield rest next_url =>
        delivered session_get 0 (sent g) = ys ++ rest
        ∧ ∃ m prev page,
            length (sent g) = S m
            ∧ sent g !! m = Some prev
            ∧ get_page session_get m prev = inr page
            ∧ ListBooksResponse.next page = next_url
    | Returned => False
    end.
End traversal.

(** ** Shapes of JSON documents

    The shape the class declarations give to a document.  With
    [closed = true] an object has the declared keys and no other. *)
Definition is_int (v : pyobj) : bool :=
  match v with PInt _ => true | _ => false end.
Definition is_str (v : pyobj) : bool :=
  match v with PStr _ => true | _ => false end.
Definition is_bool (v : pyobj) : bool :=
  match v with PBool _ => true | _ => false end.
Definition is_dict (v : pyobj) : bool :=
  match v with PDict _ => true | _ => false end.
Definition nullable (f : pyobj → bool) (v : pyobj) : bool :=
  match v with PNone => true | _ => f v end.
Definition array_of (f : pyobj → bool) (v : pyobj) : bool :=
  match v with PList l => forallb f l | _ => false end.
Definition has (f : pyobj → bool) (d : gmap string pyobj) (k : string) : bool :=
  match d !! k with Some v => f v | None => false end.
Definition keys (closed : bool) (names : list string) (d : gmap string pyobj)
  : bool :=
  if closed then bool_decide (dom d = list_to_set names) else true.

Definition person_shape (closed : bool) (v : pyobj) : bool :=
  match v with
  | PDict d =>
      keys closed ["birth_year"; "death_year"; "name"] d
      && has (nullable is_int) d "birth_year"
      && has (nullable is_int) d "death_year"
      && has is_str d "name"
  | _ => false
  end.

Definition book_shape (closed : bool) (v : pyobj) : bool :=
  match v with
  | PDict d =>
      keys closed ["id"; "title"; "subjects"; "authors"; "translators";
                   "bookshelves"; "languages"; "copyright"; "media_type";
                   "formats"; "download_count"] d
      && has is_int d "id"
      && has is_str d "title"
      && has (array_of is_str) d "subjects"
      && has (array_of (person_shape closed)) d "authors"
      && has (array_of (person_shape closed)) d "translators"
      && has (array_of is_str) d "bookshelves"
      && has (array_of is_str) d "languages"
      && has (nullable is_bool) d "copyright"
      && has is_str d "media_type"
      && has is_dict d "formats"
      && has is_int d "download_count"
  | _ => false
  end.

Definition page_shape (closed : bool) (v : pyobj) : bool :=
  match v with
  | PDict d =>
      keys closed ["count"; "next"; "previous"; "results"] d
      && has is_int d "count"
      && has (nullable is_str) d "next"
      && has (nullable is_str) d "previous"
      && has (array_of (book_shape closed)) d "results"
  | _ => false
  end.

(** The items of the [results] array of a page document. *)
Definition results_array (v : pyobj) : list pyobj :=
  match v with
  | PDict d => match d !! "results" with Some (PList l) => l | _ => [] end
  | _ => []
  end.

(** The decoded Record [b] holds [formats] and [download_count] as the
    document [x] gives them. *)
Definition kept (x : pyobj) (b : Book.t) : Prop :=
  ∀ d, x = PDict d →
       d !! "formats" = Some (PDict (Book.formats b))
       ∧ d !! "download_count" = Some (PInt (Book.download_count b)).

(** *** The data model as the specification words it

    Section 3 of the specification asks more of a Record than the class
    [Book] declares: [formats] maps format names to URL strings and
    [download_count] is a non-negative integer.  [spec_page] is the
    statement "every field of Page, Record and Person is present with the
    type required by section 3". *)
Definition is_url_map (v : pyobj) : bool :=
  match v with
  | PDict m => bool_decide (map_Forall (λ _ x, is_str x = true) m)
  | _ => false
  end.
Definition is_non_negative (v : pyobj) : bool :=
  match v with PInt z => (0 <=? z)%Z | _ => false end.

Definition spec_person (v : pyobj) : bool := person_shape false v.

Definition spec_record (v : pyobj) : bool :=
  match v with
  | PDict d =>
      has is_int d "id"
      && has is_str d "title"
      && has (array_of is_str) d "subjects"
      && has (array_of spec_person) d "authors"
      && has (array_of spec_person) d "translators"
      && has (array_of is_str) d "bookshelves"
      && has (array_of is_str) d "languages"
      && has (nullable is_bool) d "copyright"
      && has is_str d "media_type"
      && has is_url_map d "formats"
      && has is_non_negative d "download_count"
  | _ => false
  end.

Definition spec_page (v : pyobj) : bool :=
  match v with
  | PDict d =>
      has is_int d "count"
      && has (nullable is_str) d "next"
      && has (nullable is_str) d "previous"
      && has (array_of spec_record) d "results"
  | _ => false
  end.

(** A status is a success when it is 2xx. *)
Definition success (status : Z) : bool := ((200 <=? status) && (status <? 300))%Z.

(** *** Documents that cannot be accepted

    Where validation does not depend on what a validator converts: a
    required field that is missing or [null], a list field that is not an
    array or has a [null] item, and a scalar field that holds a value
    [bad] for every validator. *)
Definition is_none (v : pyobj) : bool :=
  match v with PNone => true | _ => false end.

(** A required field: missing, [null], or unfit by [f]. *)
Definition lacks (f : pyobj → bool) (d : gmap string pyobj) (k : string) : bool :=
  match d !! k with
  | None | Some PNone => true
  | Some v => f v
  end.

(** An optional field may be missing or [null]. *)
Definition mistyped (f : pyobj → bool) (d : gmap string pyobj) (k : string)
  : bool :=
  match d !! k with
  | None | Some PNone => false
  | Some v => f v
  end.

Definition not_array_of (item : pyobj → bool) (v : pyobj) : bool :=
  match v with
  | PList l => existsb (λ x, is_none x || item x) l
  | _ => true
  end.

Definition nothing (v : pyobj) : bool := false.

Definition person_unfit (bad : pyobj → bool) (v : pyobj) : bool :=
  match v with
  | PDict d =>
      mistyped bad d "birth_year"
      || mistyped bad d "death_year"
      || lacks bad d "name"
  | _ => false
  end.

Definition book_unfit (bad : pyobj → bool) (v : pyobj) : bool :=
  match v with
  | PDict d =>
      lacks bad d "id"
      || lacks bad d "title"
      || lacks (not_array_of bad) d "subjects"
      || lacks (not_array_of (person_unfit bad)) d "authors"
      || lacks (not_array_of (person_unfit bad)) d "translators"
      || lacks (not_array_of bad) d "bookshelves"
      || lacks (not_array_of bad) d "languages"
      || mistyped bad d "copyright"
      || lacks bad d "media_type"
      || lacks nothing d "formats"
      || lacks bad d "download_count"
  | _ => false
  end.

Definition page_unfit (bad : pyobj → bool) (v : pyobj) : bool :=
  match v with
  | PDict d =>
      lacks bad d "count"
      || mistyped bad d "next"
      || mistyped bad d "previous"
      || lacks (not_array_of (book_unfit bad)) d "results"
  | _ => false
  end.

(** Arrays and objects. *)
Definition compound (v : pyobj) : bool :=
  match v with PList _ | PDict _ => true | _ => false end.

(** The validators convert scalars only. *)
Class Scalar (V : Validators) : Prop := {
  int_validator_compound v : compound v = true → int_validator v = None;
  str_validator_compound v : compound v = true → str_validator v = None;
  bool_validator_compound v : compound v = true → bool_validator v = None;
}.

(** ** Sample documents *)
Module Sample.
Definition person (birth_year death_year name : pyobj) : pyobj :=
  PDict (<["birth_year" := birth_year]>
        (<["death_year" := death_year]>
        (<["name" := name]> ∅))).

Definition austen : pyobj :=
  person (PInt 1775) (PInt 1817) (PStr "Austen, Jane").

(** a Person with an explicit [null] *)
Definition homer : pyobj := person PNone PNone (PStr "Homer").

Definition html (target : pyobj) : pyobj :=
  PDict (<["text/html" := target]> ∅).

Definition book (id : Z) (authors : list pyobj) (formats : pyobj)
    (download_count : pyobj) : pyobj :=
  PDict (<["id" := PInt id]>
        (<["title" := PStr "Pride and Prejudice"]>
        (<["subjects" := PList [PStr "Courtship -- Fiction"]]>
        (<["authors" := PList authors]>
        (<["translators" := PList []]>
        (<["bookshelves" := PList []]>
        (<["languages" := PList [PStr "en"]]>
        (<["copyright" := PBool false]>
        (<["media_type" := PStr "Text"]>
        (<["formats" := formats]>
        (<["download_count" := download_count]> ∅))))))))))).

Definition pride (id : Z) : pyobj :=
  book id [austen]
    (html (PStr "https://www.gutenberg.org/ebooks/1342.html.images"))
    (PInt 57000).

Definition page (count next : pyobj) (results : list pyobj) : pyobj :=
  PDict (<["count" := count]>
        (<["next" := next]>
        (<["previous" := PNone]>
        (<["results" := PList results]> ∅)))).

(** a Record with a negative [download_count] and a format that is not
    a URL string *)
Definition odd_book : pyobj := book 7 [austen] (html (PInt 5)) (PInt (-7)).

Definition odd_page : pyobj := page (PInt 1) PNone [odd_book].

(** a Person without the keys [birth_year] and [death_year], and a page
    with a book of that Person *)
Definition bare : pyobj := PDict (<["name" := PStr "Homer"]> ∅).
Definition bare_page : pyobj :=
  page (PInt 1) PNone
    [book 8 [bare] (html (PStr "https://www.gutenberg.org/ebooks/8.html"))
       (PInt 12)].

(** a Page whose [count] is written as a string *)
Definition quoted_count : pyobj := page (PStr "5") PNone [].

(** a Page with 33 Records *)
Definition long_page : pyobj :=
  page (PInt 33) PNone (pride <$> seqZ 1 33).

Definition jane : Person.t := Person.mk (Some 1775%Z) (Some 1817%Z) "Austen, Jane".

Definition emma : Book.t :=
  Book.mk 158 "Emma" ["England -- Fiction"] [jane] [] ["Best Books Ever Listings"]
    ["en"] (Some false) "Text"
    (<["text/plain" := PStr "https://www.gutenberg.org/ebooks/158.txt.utf-8"]> ∅)
    21000.

Definition persuasion : Book.t :=
  Book.mk 105 "Persuasion" [] [jane] [] [] ["en"] None "Text" ∅ 9000.

(** *** Servers *)
Definition second : string := "https://gutendex.com/books/?page=2".

Definition page1 : ListBooksResponse.t :=
  ListBooksResponse.mk 2 (Some second) None [emma].
Definition page2 : ListBooksResponse.t :=
  ListBooksResponse.mk 2 None (Some Gutendex.endpoint) [persuasion].

Definition answer (status : Z) (page : ListBooksResponse.t) : option Response.t :=
  Some (Response.mk status (Some (ListBooksResponse.json page))).

(** two pages, the second behind the [next] of the first *)
Definition two_pages : Server :=
  λ _ req, if bool_decide (url req = second)
           then answer 200 page2 else answer 200 page1.

(** the same, the second page answered with status 500 *)
Definition broken : Server :=
  λ _ req, if bool_decide (url req = second)
           then answer 500 page2 else answer 200 page1.

(** a page sent with status 300 *)
Definition multiple_choices : Server := λ _ _, answer 300 page2.

(** a page whose [next] is the empty string *)
Definition blank : ListBooksResponse.t :=
  ListBooksResponse.mk 1 (Some EmptyString) None [emma].
Definition blank_next : Server := λ _ _, answer 200 blank.

Definition french : gmap string pyobj := <["languages" := PStr "fr"]> ∅.

(** a Page without the key [results] *)
Definition no_results : pyobj :=
  PDict (<["count" := PInt 0]> (<["next" := PNone]> (<["previous" := PNone]> ∅))).

(** a Page whose [count] is an array *)
Definition array_count : pyobj := page (PList [PInt 5]) PNone [].
End Sample.

(** ** The script (lines 109-141) *)

(** The names of the fields of the three models. *)
Definition Person_fields : list string := ["birth_year"; "death_year"; "name"].
Definition Book_fields : list string :=
  ["id"; "title"; "subjects"; "authors"; "translators"; "bookshelves";
   "languages"; "copyright"; "media_type"; "formats"; "download_count"].
Definition ListBooksResponse_fields : list string :=
  ["count"; "next"; "previous"; "results"].

Module Main.
Section comprehension.
Context `{Validators} (session_get : Server).
Import Gutendex.

(** [[book for book, _ in zip(gen, range(k))]] (lines 113 and 117, with
    [k = 50]).  [zip] asks its first argument first: it takes a record
    from the generator, then asks the range; when the range is used up
    the record just taken is dropped and the list is complete.  Each call
    of [next()] on the generator has [fuel] resumptions. *)
Fixpoint zip_range (fuel k : nat) (g : gen) : list Book.t * gen * outcome :=
  match consume session_get fuel 1 g with
  | ([b], g', Taken) =>
      match k with
      | 0 => ([], g', Taken)
      | S k' =>
          let '(bs, g'', o) := zip_range fuel k' g' in (b :: bs, g'', o)
      end
  | (_, g', o) => ([], g', o)
  end.
End comprehension.

(** Line 126: [json.dumps([book.dict() for book in books[:3]])]. *)
Definition dumps_dicts (books : list Book.t) : pyobj :=
  PList (Book.json <$> take 3 books).

(** Lines 130-131: [class SerializeHelper(BaseModel): books: list[Book]]. *)
Module SerializeHelper.
Record t := mk {
  books : list Book.t;
}.

Section validation.
Context `{Validators}.

Definition validate_model (input_data : gmap string pyobj) : option t :=
  b ← required (sequence_like Book.validate) input_data "books";
  Some (mk b).

Definition parse_obj : pyobj → option t := model validate_model.
End validation.

Definition dict (h : t) : gmap string pyobj :=
  <["books" := PList (Book.json <$> books h)]> ∅.
Definition json (h : t) : pyobj := PDict (dict h).
End SerializeHelper.

(** Lines 137-138: [class SerializeHelperRoot(BaseModel): __root__:
    list[Book]], a model with a custom root; the field [__root__] is
    [root] here. *)
Module SerializeHelperRoot.
Record t := mk {
  root : list Book.t;
}.

Section validation.
Context `{Validators}.

(** [_enforce_dict_if_root]: anything but a dict whose only key is
    [__root__] is taken as the root value. *)
Definition enforce_dict_if_root (obj : pyobj) : pyobj :=
  match obj with
  | PDict d =>
      if bool_decide (dom d = {["__root__"]}) then obj
      else PDict (<["__root__" := obj]> ∅)
  | _ => PDict (<["__root__" := obj]> ∅)
  end.

Definition validate_model (input_data : gmap string pyobj) : option t :=
  r ← required (sequence_like Book.validate) input_data "__root__";
  Some (mk r).

Definition parse_obj (obj : pyobj) : option t :=
  model validate_model (enforce_dict_if_root obj).
End validation.

Definition dict (h : t) : gmap string pyobj :=
  <["__root__" := PList (Book.json <$> root h)]> ∅.

(** [json()] of a model with a custom root writes the root value alone. *)
Definition json (h : t) : pyobj := PList (Book.json <$> root h).
End SerializeHelperRoot.

(** Lines 133 and 140: the helpers are built from the first three books.
    The books are [Book] instances already; validation copies them. *)
Definition helper (books : list Book.t) : SerializeHelper.t :=
  SerializeHelper.mk (take 3 books).
Definition helper_root (books : list Book.t) : SerializeHelperRoot.t :=
  SerializeHelperRoot.mk (take 3 books).
End Main.

(** A generator that is not at its end and, between two pages, holds a
    truthy [next]. *)
Definition going (g : Gutendex.gen) : Prop :=
  match Gutendex.at_ g with
  | Gutendex.AtGet _ _ => True
  | Gutendex.AtYield _ next_url => truthy next_url = true
  | Gutendex.Returned => False
  end.

(** ** More sample data *)
Module Mock.
(** a page that names itself as the next page *)
Definition loop : ListBooksResponse.t :=
  ListBooksResponse.mk 1 (Some Gutendex.endpoint) None [Sample.emma].
Definition looping : Server := λ _ _, Sample.answer 200 loop.

(** a page document without the keys [next] and [previous] *)
Definition no_next : gmap string pyobj :=
  <["count" := PInt 1]> (<["results" := PList [Book.json Sample.persuasion]]> ∅).
Definition ending : Server :=
  λ _ _, Some (Response.mk 200 (Some (PDict no_next))).

(** the second page has a body that is not JSON *)
Definition garbled : Server :=
  λ _ req, if bool_decide (url req = Sample.second)
           then Some (Response.mk 200 None) else Sample.answer 200 Sample.page1.

(** three pages of two books each *)
Definition third : string := "https://gutendex.com/books/?page=3".
Definition pair1 : ListBooksResponse.t :=
  ListBooksResponse.mk 6 (Some Sample.second) None [Sample.emma; Sample.persuasion].
Definition pair2 : ListBooksResponse.t :=
  ListBooksResponse.mk 6 (Some third) None [Sample.persuasion; Sample.emma].
Definition pair3 : ListBooksResponse.t :=
  ListBooksResponse.mk 6 None None [Sample.emma; Sample.emma].
Definition pairs : Server :=
  λ _ req, if bool_decide (url req = Sample.second) then Sample.answer 200 pair2
           else if bool_decide (url req = third) then Sample.answer 200 pair3
           else Sample.answer 200 pair1.

(** a page with one good record and one record without a title *)
Definition untitled : pyobj :=
  match Book.json Sample.emma with
  | PDict d => PDict (delete "title" d)
  | v => v
  end.
Definition spoiled : gmap string pyobj :=
  <["count" := PInt 2]>
 (<["results" := PList [Book.json Sample.persuasion; untitled]]> ∅).
End Mock.

(** * Properties *)

#[global] Instance v1_lawful : Lawful v1.
Proof. split; reflexivity. Qed.

(** ** Documents of the declared shape are accepted *)
Section shapes.
Context {V : Validators} {L : Lawful V}.

Lemma has_lookup f d k :
  has f d k = true → ∃ v, d !! k = Some v ∧ f v = true.
Proof. unfold has. destruct (d !! k); [eauto | done]. Qed.

Lemma is_int_inv v : is_int v = true → ∃ z, v = PInt z.
Proof. destruct v; try done. eauto. Qed.

Lemma is_str_inv v : is_str v = true → ∃ s, v = PStr s.
Proof. destruct v; try done. eauto. Qed.

Lemma is_dict_inv v : is_dict v = true → ∃ m, v = PDict m.
Proof. destruct v; try done. eauto. Qed.

Lemma array_of_inv f v :
  array_of f v = true → ∃ l, v = PList l ∧ Forall (λ x, f x = true) l.
Proof.
  destruct v; try done. simpl. intros Hall. eexists; split; [done |].
  apply Forall_forall. intros x Hx. rewrite forallb_forall in Hall.
  apply Hall. by apply list_elem_of_In.
Qed.

Lemma int_field v :
  is_int v = true → ∃ z, singleton int_validator v = Some z ∧ PInt z = v.
Proof. intros [z ->]%is_int_inv. exists z. simpl. by rewrite int_validator_int. Qed.

Lemma str_field v :
  is_str v = true → ∃ s, singleton str_validator v = Some s ∧ PStr s = v.
Proof. intros [s ->]%is_str_inv. exists s. simpl. by rewrite str_validator_str. Qed.

Lemma dict_field v :
  is_dict v = true → ∃ m, singleton dict_validator v = Some m ∧ PDict m = v.
Proof. intros [m ->]%is_dict_inv. by exists m. Qed.

Lemma optional_int_field v :
  nullable is_int v = true →
  ∃ o, allow_none int_validator v = Some o ∧ opt PInt o = v.
Proof.
  destruct v; try done.
  - by exists None.
  - intros _. exists (Some z). simpl. by rewrite int_validator_int.
Qed.

Lemma optional_str_field v :
  nullable is_str v = true →
  ∃ o, allow_none str_validator v = Some o ∧ opt PStr o = v.
Proof.
  destruct v; try done.
  - by exists None.
  - intros _. exists (Some s). simpl. by rewrite str_validator_str.
Qed.

Lemma optional_bool_field v :
  nullable is_bool v = true →
  ∃ o, allow_none bool_validator v = Some o ∧ opt PBool o = v.
Proof.
  destruct v; try done.
  - by exists None.
  - intros _. exists (Some b). simpl. by rewrite bool_validator_bool.
Qed.

(** A list field whose items all have a shape that the item validator
    accepts. *)
Lemma list_field {A} (f : pyobj → bool) (validate : pyobj → option A)
    (R : pyobj → A → Prop) v :
  (∀ x, f x = true → ∃ a, singleton validate x = Some a ∧ R x a) →
  array_of f v = true →
  ∃ l xs, v = PList l ∧ sequence_like validate v = Some xs ∧ Forall2 R l xs.
Proof.
  intros Hitem (l & -> & Hall)%array_of_inv. exists l.
  induction Hall as [| x l Hx _ (xs & _ & Hxs & HR)].
  - by exists [].
  - destruct (Hitem x Hx) as (a & Ha & HRa). exists (a :: xs).
    split; [done |]. split; [| by constructor].
    simpl in *. rewrite Ha. simpl. by rewrite Hxs.
Qed.

Lemma str_list_field v :
  array_of is_str v = true →
  ∃ ss, sequence_like str_validator v = Some ss ∧ PList (PStr <$> ss) = v.
Proof.
  intros Hv.
  destruct (list_field is_str str_validator (λ x s, PStr s = x) v)
    as (l & ss & -> & Hss & HR); [apply str_field | done |].
  exists ss. split; [done |]. f_equal.
  clear Hv Hss. induction HR as [| ? ? ? ? Hx _ IH]; csimpl; congruence.
Qed.

Lemma keys_closed names d k :
  keys true names d = true → k ∉ names → d !! k = None.
Proof.
  unfold keys. intros Hd%bool_decide_eq_true Hk.
  apply not_elem_of_dom. rewrite Hd. by rewrite elem_of_list_to_set.
Qed.

(** Splits the last check off a conjunction of boolean checks. *)
Tactic Notation "check" ident(H) "as" ident(H') :=
  apply andb_true_iff in H; destruct H as [H H'].

(** Takes a checked field out of the input: its value, the validated
    value [x] and how [x] is written back. *)
Tactic Notation "field" ident(H) "by" constr(lem)
    "as" ident(x) ident(Hx) ident(He) :=
  let v := fresh "v" in
  let Hv := fresh "Hv" in
  apply has_lookup in H; destruct H as (v & H & Hv);
  apply lem in Hv; destruct Hv as (x & Hx & He).

(** A dictionary written field by field equals an input that has the
    same values under the same keys and no other key. *)
Ltac same_fields Hkeys :=
  let k := fresh "k" in
  apply map_eq; intros k;
  repeat (rewrite lookup_insert; destruct (decide _) as [<- | ?];
          [congruence |]);
  rewrite lookup_empty; symmetry; apply (keys_closed _ _ _ Hkeys);
  rewrite !elem_of_cons, elem_of_nil; intuition congruence.

Lemma person_accepted c v :
  person_shape c v = true →
  ∃ p, singleton Person.validate v = Some p ∧ (c = true → Person.json p = v).
Proof.
  destruct v as [| | | | | d]; try done. simpl. intros Hs.
  check Hs as Hn. check Hs as Hd. check Hs as Hb.
  field Hb by optional_int_field as b Hb' Eb.
  field Hd by optional_int_field as dy Hd' Ed.
  field Hn by str_field as n Hn' En.
  exists (Person.mk b dy n). split.
  - unfold Person.validate, model, Person.validate_model, not_required, required.
    simpl. rewrite Hb, Hd, Hn. simpl. rewrite Hb', Hd', Hn'. done.
  - intros ->. unfold Person.json, Person.dict. simpl. f_equal. same_fields Hs.
Qed.

(** A list of model objects. *)
Lemma model_list_field {A} (shape : pyobj → bool)
    (validate : pyobj → option A) (enc : A → pyobj) c v :
  (∀ x, shape x = true →
        ∃ a, singleton validate x = Some a ∧ (c = true → enc a = x)) →
  array_of shape v = true →
  ∃ l xs, v = PList l ∧ sequence_like validate v = Some xs
          ∧ (c = true → enc <$> xs = l) ∧ length xs = length l.
Proof.
  intros Hitem Hv.
  destruct (list_field shape validate (λ x a, c = true → enc a = x) v)
    as (l & xs & -> & Hxs & HR); [done | done |].
  exists l, xs. split; [done |]. split; [done |].
  split; [| symmetry; by eapply Forall2_length].
  intros Hc. clear Hv Hxs.
  induction HR as [| ? ? ? ? Hx _ IH]; csimpl; [done |].
  by rewrite Hx, IH.
Qed.

Lemma book_accepted c v :
  book_shape c v = true →
  ∃ b, singleton Book.validate v = Some b
       ∧ (c = true → Book.json b = v)
       ∧ kept v b.
Proof.
  destruct v as [| | | | | d]; try done. simpl. intros Hs.
  check Hs as Hdc. check Hs as Hfo. check Hs as Hme. check Hs as Hco.
  check Hs as Hla. check Hs as Hbo. check Hs as Htr. check Hs as Hau.
  check Hs as Hsu. check Hs as Hti. check Hs as Hid.
  field Hid by int_field as i Hid' Eid.
  field Hti by str_field as ti Hti' Eti.
  field Hsu by str_list_field as su Hsu' Esu.
  field Hbo by str_list_field as bo Hbo' Ebo.
  field Hla by str_list_field as la Hla' Ela.
  field Hco by optional_bool_field as co Hco' Eco.
  field Hme by str_field as me Hme' Eme.
  field Hfo by dict_field as fo Hfo' Efo.
  field Hdc by int_field as dc Hdc' Edc.
  apply has_lookup in Hau as (vau & Hau & Sau).
  apply (model_list_field _ Person.validate Person.json c) in Sau
    as (lau & au & -> & Hau' & Eau & _); [| apply person_accepted].
  apply has_lookup in Htr as (vtr & Htr & Str).
  apply (model_list_field _ Person.validate Person.json c) in Str
    as (ltr & tr & -> & Htr' & Etr & _); [| apply person_accepted].
  exists (Book.mk i ti su au tr bo la co me fo dc). split; [| split].
  - unfold Book.validate, model, Book.validate_model, not_required, required.
    simpl. rewrite Hid, Hti, Hsu, Hau, Htr, Hbo, Hla, Hco, Hme, Hfo, Hdc.
    simpl in *. rewrite Hid', Hti', Hsu', Hau', Htr', Hbo', Hla', Hco'. simpl.
    rewrite Hme', Hfo', Hdc'. done.
  - intros ->. unfold Book.json, Book.dict. simpl. f_equal.
    rewrite Eau, Etr by done. same_fields Hs.
  - intros ? [= <-]. simpl. by rewrite Hfo, Hdc, Efo, Edc.
Qed.

Lemma page_accepted c v :
  page_shape c v = true →
  ∃ p, ListBooksResponse.parse_obj v = Some p
       ∧ (c = true → ListBooksResponse.json p = v)
       ∧ Forall2 kept (results_array v) (ListBooksResponse.results p).
Proof.
  destruct v as [| | | | | d]; try done. simpl. intros Hs.
  check Hs as Hre. check Hs as Hpr. check Hs as Hne. check Hs as Hco.
  field Hco by int_field as co Hco' Eco.
  field Hne by optional_str_field as ne Hne' Ene.
  field Hpr by optional_str_field as pr Hpr' Epr.
  apply has_lookup in Hre as (vre & Hre & Sre).
  apply (list_field _ Book.validate
           (λ x b, (c = true → Book.json b = x) ∧ kept x b)) in Sre
    as (lre & re & -> & Hre' & HR).
  2: { intros x Hx. destruct (book_accepted c x Hx) as (b & ? & ? & ?). eauto. }
  exists (ListBooksResponse.mk co ne pr re). split; [| split].
  - unfold ListBooksResponse.parse_obj, model,
      ListBooksResponse.validate_model, not_required, required.
    simpl. rewrite Hco, Hne, Hpr, Hre. simpl in *.
    rewrite Hco', Hne', Hpr', Hre'. done.
  - intros ->. unfold ListBooksResponse.json, ListBooksResponse.dict.
    simpl. f_equal.
    assert (Book.json <$> re = lre) as ->; [| same_fields Hs].
    clear Hre Hre'. induction HR as [| ? ? ? ? [Hx _] _ IH]; csimpl; [done |].
    by rewrite Hx, IH.
  - simpl. rewrite Hre. eapply Forall2_impl; [exact HR |]. by intros ? ? [_ ?].
Qed.
End shapes.

(** ** What [dict()] writes is read back unchanged *)
Section round_trip.
Context {V : Validators} {L : Lawful V}.

Ltac lookups :=
  repeat (rewrite lookup_insert_eq || (rewrite lookup_insert_ne by done)).

Lemma optional_int_written o : allow_none int_validator (opt PInt o) = Some o.
Proof. destruct o; simpl; [by rewrite int_validator_int | done]. Qed.

Lemma optional_str_written o : allow_none str_validator (opt PStr o) = Some o.
Proof. destruct o; simpl; [by rewrite str_validator_str | done]. Qed.

Lemma optional_bool_written o : allow_none bool_validator (opt PBool o) = Some o.
Proof. destruct o; simpl; [by rewrite bool_validator_bool | done]. Qed.

Lemma list_written {A} (validate : pyobj → option A) (enc : A → pyobj) xs :
  (∀ a, singleton validate (enc a) = Some a) →
  sequence_like validate (PList (enc <$> xs)) = Some xs.
Proof.
  intros Hitem. simpl. apply mapM_Some, Forall2_fmap_l, Forall_Forall2_diag.
  apply Forall_forall. intros a _. apply Hitem.
Qed.

Lemma str_list_written ss :
  sequence_like str_validator (PList (PStr <$> ss)) = Some ss.
Proof. apply list_written. intros s. simpl. apply str_validator_str. Qed.

Lemma person_written p : singleton Person.validate (Person.json p) = Some p.
Proof.
  unfold Person.json, Person.validate, model, Person.validate_model,
    not_required, required, Person.dict. simpl. lookups.
  rewrite !optional_int_written. simpl. rewrite str_validator_str.
  by destruct p.
Qed.

Lemma book_written b : singleton Book.validate (Book.json b) = Some b.
Proof.
  unfold Book.json, Book.validate, model, Book.validate_model,
    not_required, required, Book.dict.
  cbn [singleton dict_validator mbind option_bind]. lookups.
  rewrite !str_list_written, !(list_written _ _ _ person_written).
  rewrite optional_bool_written. simpl.
  rewrite !int_validator_int, !str_validator_str. simpl.
  by destruct b.
Qed.

Lemma page_written p :
  ListBooksResponse.parse_obj (ListBooksResponse.json p) = Some p.
Proof.
  unfold ListBooksResponse.json, ListBooksResponse.parse_obj, model,
    ListBooksResponse.validate_model, not_required, required,
    ListBooksResponse.dict.
  cbn [dict_validator mbind option_bind]. lookups.
  rewrite !optional_str_written, (list_written _ _ _ book_written). simpl.
  rewrite int_validator_int. simpl.
  by destruct p.
Qed.
End round_trip.

(** ** What validation has checked when it succeeds *)
Section checked.
Context {V : Validators}.

Lemma person_checked d p :
  Person.validate_model d = Some p →
  not_required (allow_none int_validator) d "birth_year" = Some (Person.birth_year p)
  ∧ not_required (allow_none int_validator) d "death_year" = Some (Person.death_year p)
  ∧ required (singleton str_validator) d "name" = Some (Person.name p).
Proof. unfold Person.validate_model. intros Hp. by simplify_option_eq. Qed.

Lemma book_checked d b :
  Book.validate_model d = Some b →
  required (singleton int_validator) d "id" = Some (Book.id b)
  ∧ required (singleton str_validator) d "title" = Some (Book.title b)
  ∧ required (sequence_like str_validator) d "subjects" = Some (Book.subjects b)
  ∧ required (sequence_like Person.validate) d "authors" = Some (Book.authors b)
  ∧ required (sequence_like Person.validate) d "translators"
    = Some (Book.translators b)
  ∧ required (sequence_like str_validator) d "bookshelves"
    = Some (Book.bookshelves b)
  ∧ required (sequence_like str_validator) d "languages" = Some (Book.languages b)
  ∧ not_required (allow_none bool_validator) d "copyright" = Some (Book.copyright b)
  ∧ required (singleton str_validator) d "media_type" = Some (Book.media_type b)
  ∧ required (singleton dict_validator) d "formats" = Some (Book.formats b)
  ∧ required (singleton int_validator) d "download_count"
    = Some (Book.download_count b).
Proof. unfold Book.validate_model. intros Hb. by simplify_option_eq. Qed.

Lemma page_checked d p :
  ListBooksResponse.validate_model d = Some p →
  required (singleton int_validator) d "count" = Some (ListBooksResponse.count p)
  ∧ not_required (allow_none str_validator) d "next"
    = Some (ListBooksResponse.next p)
  ∧ not_required (allow_none str_validator) d "previous"
    = Some (ListBooksResponse.previous p)
  ∧ required (sequence_like Book.validate) d "results"
    = Some (ListBooksResponse.results p).
Proof. unfold ListBooksResponse.validate_model. intros Hp. by simplify_option_eq. Qed.
End checked.

(** ** Unfit documents are rejected *)
Section rejected.
Context {V : Validators} (bad : pyobj → bool).
Hypothesis int_validator_bad : ∀ v, bad v = true → int_validator v = None.
Hypothesis str_validator_bad : ∀ v, bad v = true → str_validator v = None.
Hypothesis bool_validator_bad : ∀ v, bad v = true → bool_validator v = None.

Lemma lacks_rejected {A} f (validate : pyobj → option A) d k :
  validate PNone = None →
  (∀ v, f v = true → validate v = None) →
  lacks f d k = true → required validate d k = None.
Proof.
  unfold lacks, required. intros Hnone Hf.
  destruct (d !! k) as [v |]; [| done]. destruct v; auto.
Qed.

Lemma mistyped_rejected {A} f (validate : pyobj → option A) d k :
  (∀ v, f v = true → validate v = None) →
  mistyped f d k = true → not_required (allow_none validate) d k = None.
Proof.
  unfold mistyped, not_required. intros Hf.
  destruct (d !! k) as [v |]; [| done].
  destruct v; try done; simpl; intros Hv; by rewrite Hf.
Qed.

Lemma singleton_rejected {A} f (validate : pyobj → option A) v :
  (∀ v, f v = true → validate v = None) →
  f v = true → singleton validate v = None.
Proof. intros Hf Hv. destruct v; simpl; auto. Qed.

Lemma not_array_rejected {A} item (validate : pyobj → option A) v :
  (∀ x, item x = true → singleton validate x = None) →
  not_array_of item v = true → sequence_like validate v = None.
Proof.
  intros Hitem. destruct v as [| | | | l |]; try done. simpl.
  intros (x & Hx & Hbad)%existsb_exists. apply mapM_None, Exists_exists.
  exists x. split; [by apply list_elem_of_In |].
  apply orb_true_iff in Hbad as [Hnone | Hbad]; [by destruct x | auto].
Qed.

(** Closes a case in which the field checked by [Hok] is unfit. *)
Ltac optional_unfit Hu Hok validator law :=
  apply (mistyped_rejected _ validator) in Hu; [| exact law];
  rewrite Hok in Hu; discriminate Hu.
Ltac scalar_unfit Hu Hok validator law :=
  apply (lacks_rejected _ (singleton validator)) in Hu;
  [rewrite Hok in Hu; discriminate Hu | reflexivity |];
  intros ?; apply singleton_rejected; exact law.
Ltac list_unfit Hu Hok validator law :=
  apply (lacks_rejected _ (sequence_like validator)) in Hu;
  [rewrite Hok in Hu; discriminate Hu | reflexivity |];
  intros ?; apply not_array_rejected; exact law.

Lemma person_rejected v :
  person_unfit bad v = true → singleton Person.validate v = None.
Proof.
  destruct v as [| | | | | d]; try done. simpl.
  unfold Person.validate, model. simpl. intros Hu.
  destruct (Person.validate_model d) as [p |] eqn:Hp; [exfalso | done].
  apply person_checked in Hp as (Hb & Hd & Hn).
  rewrite !orb_true_iff in Hu. destruct Hu as [[Hu | Hu] | Hu].
  - optional_unfit Hu Hb int_validator int_validator_bad.
  - optional_unfit Hu Hd int_validator int_validator_bad.
  - scalar_unfit Hu Hn str_validator str_validator_bad.
Qed.

Lemma str_item_rejected x :
  bad x = true → singleton str_validator x = None.
Proof. apply singleton_rejected, str_validator_bad. Qed.

Lemma book_rejected v :
  book_unfit bad v = true → singleton Book.validate v = None.
Proof.
  destruct v as [| | | | | d]; try done. simpl.
  unfold Book.validate, model. simpl. intros Hu.
  destruct (Book.validate_model d) as [b |] eqn:Hb; [exfalso | done].
  apply book_checked in Hb
    as (Hid & Hti & Hsu & Hau & Htr & Hbo & Hla & Hco & Hme & Hfo & Hdc).
  rewrite !orb_true_iff in Hu.
  destruct Hu as [[[[[[[[[[Hu | Hu] | Hu] | Hu] | Hu] | Hu] | Hu] | Hu] | Hu] | Hu] | Hu].
  - scalar_unfit Hu Hid int_validator int_validator_bad.
  - scalar_unfit Hu Hti str_validator str_validator_bad.
  - list_unfit Hu Hsu str_validator str_item_rejected.
  - list_unfit Hu Hau Person.validate person_rejected.
  - list_unfit Hu Htr Person.validate person_rejected.
  - list_unfit Hu Hbo str_validator str_item_rejected.
  - list_unfit Hu Hla str_validator str_item_rejected.
  - optional_unfit Hu Hco bool_validator bool_validator_bad.
  - scalar_unfit Hu Hme str_validator str_validator_bad.
  - apply (lacks_rejected _ (singleton dict_validator)) in Hu;
      [rewrite Hfo in Hu; discriminate Hu | reflexivity | done].
  - scalar_unfit Hu Hdc int_validator int_validator_bad.
Qed.

Lemma page_rejected v :
  page_unfit bad v = true → ListBooksResponse.parse_obj v = None.
Proof.
  destruct v as [| | | | | d]; try done. simpl.
  unfold ListBooksResponse.parse_obj, model. simpl. intros Hu.
  destruct (ListBooksResponse.validate_model d) as [p |] eqn:Hp;
    [exfalso | done].
  apply page_checked in Hp as (Hco & Hne & Hpr & Hre).
  rewrite !orb_true_iff in Hu. destruct Hu as [[[Hu | Hu] | Hu] | Hu].
  - scalar_unfit Hu Hco int_validator int_validator_bad.
  - optional_unfit Hu Hne str_validator str_validator_bad.
  - optional_unfit Hu Hpr str_validator str_validator_bad.
  - list_unfit Hu Hre Book.validate book_rejected.
Qed.
End rejected.

#[global] Instance v1_scalar : Scalar v1.
Proof. split; intros v Hv; by destruct v. Qed.

(** The conversions of the validators on some values. *)
Example int_of_padded_str : V1.int_of_str " -1_000 " = Some (-1000)%Z.
Proof. reflexivity. Qed.

Example int_of_doubled_underscore : V1.int_of_str "1__0" = None.
Proof. reflexivity. Qed.

Example int_of_sign : V1.int_of_str "+" = None.
Proof. reflexivity. Qed.

Example int_of_bool : int_validator (PBool true) = Some 1%Z.
Proof. reflexivity. Qed.

Example str_of_int : str_validator (PInt (-42)) = Some "-42".
Proof. reflexivity. Qed.

Example bool_of_str : bool_validator (PStr "YES") = Some true.
Proof. reflexivity. Qed.

Example bool_of_int : bool_validator (PInt 2) = None.
Proof. reflexivity. Qed.

Example dict_of_pairs :
  dict_of (PList [PList [PStr "a"; PInt 1]; PStr "ab"]) = Some (<["a" := PStr "b"]> ∅).
Proof. reflexivity. Qed.

(** ** The generator *)
Section generator.
Context {V : Validators} (session_get : Server).
Import Gutendex.

Lemma consume_0 fuel g : consume session_get fuel 0 g = ([], g, Taken).
Proof. by destruct fuel. Qed.

Lemma consume_S fuel k g :
  consume session_get (S fuel) (S k) g
  = match resume session_get g with
    | (g', None) => consume session_get fuel (S k) g'
    | (g', Some (Yielded b)) =>
        let '(bs, g'', o) := consume session_get fuel k g' in (b :: bs, g'', o)
    | (g', Some StopIteration) => ([], g', Exhausted)
    | (g', Some (Raised e)) => ([], g', Failed e)
    end.
Proof. reflexivity. Qed.

(** Once the body has returned or raised, no call does anything. *)
Lemma returned_silent fuel k g :
  at_ g = Returned → ∃ o, consume session_get fuel k g = ([], g, o).
Proof.
  intros Hg. destruct k; [rewrite consume_0; eauto |].
  destruct fuel; [simpl; eauto |].
  rewrite consume_S. unfold resume. rewrite Hg. eauto.
Qed.

Lemma delivered_app n l1 l2 :
  delivered session_get n (l1 ++ l2)
  = delivered session_get n l1 ++ delivered session_get (n + length l1) l2.
Proof.
  revert n. induction l1 as [| r l1 IH]; intros n; simpl.
  - by rewrite Nat.add_0_r.
  - rewrite IH, <- app_assoc. do 3 f_equal. lia.
Qed.

Lemma delivered_snoc reqs req :
  delivered session_get 0 (reqs ++ [req])
  = delivered session_get 0 reqs ++ page_results session_get (length reqs) req.
Proof. rewrite delivered_app. simpl. by rewrite app_nil_r. Qed.

Lemma needed_snoc m reqs req :
  needed session_get m reqs →
  length (delivered session_get 0 reqs) < m →
  needed session_get m (reqs ++ [req]).
Proof.
  intros Hneed Hlen n r [Hn | [-> _]]%lookup_snoc_Some.
  - destruct Hn as [Hn Hr]. rewrite take_app_le by lia. by eapply Hneed.
  - by rewrite take_app_length.
Qed.

Lemma answered_snoc reqs req page :
  answered session_get reqs →
  get_page session_get (length reqs) req = inr page →
  answered session_get (reqs ++ [req]).
Proof.
  intros Hans Hpage n r [[_ Hr] | [-> ->]]%lookup_snoc_Some; eauto.
Qed.

Lemma linked_app params0 reqs more n req :
  linked session_get params0 reqs n req →
  linked session_get params0 (reqs ++ more) n req.
Proof.
  destruct n as [| m]; [done |]. intros (Hp & prev & page & Hprev & Hrest).
  split; [done |]. exists prev, page. split; [| done].
  by apply lookup_app_l_Some.
Qed.

Lemma linked_snoc params0 reqs req :
  (∀ n r, reqs !! n = Some r → linked session_get params0 reqs n r) →
  linked session_get params0 reqs (length reqs) req →
  ∀ n r, (reqs ++ [req]) !! n = Some r →
         linked session_get params0 (reqs ++ [req]) n r.
Proof.
  intros Hall Hlast n r [[_ Hr] | [-> ->]]%lookup_snoc_Some;
    apply linked_app; auto.
Qed.

(** What a caller finds after it has taken up to [k] records from a
    live generator. *)
Lemma consume_live params0 fuel :
  ∀ k g ys m bs g' o,
    live session_get params0 g ys →
    needed session_get m (sent g) →
    length ys + k ≤ m →
    consume session_get fuel k g = (bs, g', o) →
    (∀ n req, sent g' !! n = Some req →
              linked session_get params0 (sent g') n req)
    ∧ needed session_get m (sent g')
    ∧ match o with
      | Taken => length bs = k ∧ live session_get params0 g' (ys ++ bs)
      | Pending => length bs < k ∧ live session_get params0 g' (ys ++ bs)
      | Exhausted =>
          at_ g' = Returned
          ∧ answered session_get (sent g')
          ∧ delivered session_get 0 (sent g') = ys ++ bs
      | Failed e =>
          at_ g' = Returned
          ∧ ∃ reqs req,
              sent g' = reqs ++ [req]
              ∧ answered session_get reqs
              ∧ get_page session_get (length reqs) req = inl e
              ∧ delivered session_get 0 reqs = ys ++ bs
      end.
Proof.
  induction fuel as [| fuel IH]; intros k g ys m bs g' o Hlive Hneed Hk Hc.
  { pose proof Hlive as (Hans & Hlinks & Hpos).
    destruct k; simpl in Hc; injection Hc as <- <- <-;
      rewrite app_nil_r; (split; [done |]; split; [done |]);
      (split; [simpl; lia | exact Hlive]). }
  destruct k as [| k].
  { pose proof Hlive as (Hans & Hlinks & Hpos).
    simpl in Hc. injection Hc as <- <- <-.
    rewrite app_nil_r. split; [done |]. split; [done |].
    split; [done | exact Hlive]. }
  rewrite consume_S in Hc. unfold resume in Hc.
  destruct g as [pc reqs]. destruct Hlive as (Hans & Hlinks & Hpos).
  simpl in *. destruct pc as [u ps | [| b rest] next_url |]; [| | | done].
  - (* the request *)
    destruct Hpos as [Hys Hlast].
    assert (needed session_get m (reqs ++ [GET u ps])) as Hneed'.
    { apply needed_snoc; [done |]. rewrite Hys. lia. }
    pose proof (linked_snoc _ _ _ Hlinks Hlast) as Hlinks'.
    destruct (get_page session_get (length reqs) (GET u ps))
      as [e | page] eqn:Hpage.
    + injection Hc as <- <- <-. rewrite app_nil_r. simpl.
      split; [done |]. split; [done |]. split; [done |].
      by exists reqs, (GET u ps).
    + eapply (IH _ _ ys m) in Hc; [done | | done | done].
      split; [| split]; simpl.
      * by eapply answered_snoc.
      * done.
      * split.
        -- rewrite delivered_snoc, Hys. unfold page_results. by rewrite Hpage.
        -- exists (length reqs), (GET u ps), page.
           rewrite length_app. simpl. split; [lia |].
           split; [| done]. by apply list_lookup_middle.
  - (* the records of the page are over *)
    destruct Hpos as (Hys & n & prev & page & Hlen & Hprev & Hpage & Hnext).
    rewrite app_nil_r in Hys.
    destruct next_url as [url |]; [destruct (truthy (Some url)) eqn:Htruthy |].
    + eapply (IH _ _ ys m) in Hc; [done | | done | done].
      split; [done |]. split; [done |]. simpl. split; [done |].
      rewrite Hlen. simpl. split; [done |]. by exists prev, page.
    + injection Hc as <- <- <-. by rewrite app_nil_r.
    + injection Hc as <- <- <-. by rewrite app_nil_r.
  - (* one record is handed out *)
    destruct Hpos as [Hys Hlast].
    destruct (consume session_get fuel k (Gen (AtYield rest next_url) reqs))
      as [[bs1 g1] o1] eqn:Hc1.
    injection Hc as <- <- <-.
    eapply (IH _ _ (ys ++ [b]) m) in Hc1; [| | done |].
    + destruct Hc1 as (Hl & Hn & Ho). split; [done |]. split; [done |].
      rewrite <- app_assoc in Ho. simpl in *.
      destruct o1; [| done | done |]; destruct Ho; split; (done || lia).
    + split; [done |]. split; [done |]. simpl. by rewrite <- app_assoc.
    + rewrite length_app. simpl. lia.
Qed.

Lemma live_start params0 :
  live session_get params0 (list_of_books params0) [].
Proof. split; [| split]; done. Qed.

(** A traversal that has ended does not depend on how much more fuel or
    how many more records the caller allows. *)
Lemma consume_mono fuel :
  ∀ k g bs g' o fuel' k',
    consume session_get fuel k g = (bs, g', o) →
    o ≠ Taken → o ≠ Pending → fuel ≤ fuel' → k ≤ k' →
    consume session_get fuel' k' g = (bs, g', o).
Proof.
  induction fuel as [| fuel IH]; intros k g bs g' o fuel' k' Hc HT HP Hf Hk.
  { destruct k; simpl in Hc; injection Hc as <- <- <-; done. }
  destruct k as [| k]; [simpl in Hc; injection Hc as <- <- <-; done |].
  destruct fuel' as [| fuel']; [lia |]. destruct k' as [| k']; [lia |].
  rewrite consume_S in *.
  destruct (resume session_get g) as [g1 [[b | | e] |]]; [| done | done |].
  - destruct (consume session_get fuel k g1) as [[bs1 g1'] o1] eqn:Hc1.
    injection Hc as <- <- <-.
    rewrite (IH _ _ _ _ _ fuel' k' Hc1); [done | done | done | lia | lia].
  - apply (IH _ _ _ _ _ fuel' (S k') Hc); [done | done | lia | lia].
Qed.

(** [yield from]: the records still to yield are handed out one by one. *)
Lemma consume_yield_from rest :
  ∀ fuel k reqs next_url,
    consume session_get (length rest + fuel) (length rest + k)
      (Gen (AtYield rest next_url) reqs)
    = let '(bs, g', o) :=
        consume session_get fuel k (Gen (AtYield [] next_url) reqs) in
      (rest ++ bs, g', o).
Proof.
  induction rest as [| b rest IH]; intros fuel k reqs next_url; simpl length.
  - simpl. by destruct (consume session_get fuel k _) as [[? ?] ?].
  - simpl plus. rewrite consume_S. unfold resume. simpl. rewrite IH.
    by destruct (consume session_get fuel k _) as [[? ?] ?].
Qed.

Lemma chain_consumed pages :
  ∀ n req reqs,
    length reqs = n →
    chain session_get n req pages →
    ∃ more,
      length more = length pages
      ∧ consume session_get
          (2 * length pages + length (concat (ListBooksResponse.results <$> pages)))
          (S (length (concat (ListBooksResponse.results <$> pages))))
          (Gen (AtGet (url req) (params req)) reqs)
        = (concat (ListBooksResponse.results <$> pages),
           Gen Returned (reqs ++ more), Exhausted).
Proof.
  induction pages as [| page pages IH]; intros n req reqs Hn Hchain; [done |].
  destruct Hchain as [Hpage Hrest]. destruct req as [u ps]. simpl url. simpl params.
  rewrite fmap_cons. simpl concat. rewrite length_app. simpl length.
  set (rs := ListBooksResponse.results page).
  set (total := length (concat (ListBooksResponse.results <$> pages))).
  replace (2 * S (length pages) + (length rs + total))
    with (S (length rs + S (2 * length pages + total))) by lia.
  rewrite consume_S. unfold resume. simpl at_. simpl sent.
  rewrite Hn, Hpage. fold rs.
  replace (S (length rs + total)) with (length rs + S total) by lia.
  rewrite consume_yield_from, consume_S. unfold resume. simpl at_. simpl sent.
  destruct pages as [| page' pages'].
  - rewrite Hrest. exists [GET u ps]. split; [done |].
    simpl. by rewrite !app_nil_r.
  - destruct Hrest as (u' & Hnext & Htruthy & Hchain). rewrite Hnext, Htruthy.
    destruct (IH (S n) (GET u' None) (reqs ++ [GET u ps])) as (more & Hlen & Hc).
    { rewrite length_app. simpl. lia. }
    { done. }
    simpl url in Hc. simpl params in Hc. fold total in Hc. rewrite Hc.
    exists (GET u ps :: more). split; [simpl; by rewrite Hlen |].
    by rewrite <- app_assoc.
Qed.
End generator.

(** * The decoder *)

(** C5.  A Page document in which every field has the declared type is
    decoded, and the decoded Page has as many [results] as the array of
    the document, however long the array is. *)
Theorem decode_page_results_length {V : Validators} {L : Lawful V} (j : pyobj) :
  page_shape false j = true →
  ∃ p, ListBooksResponse.parse_obj j = Some p
       ∧ length (ListBooksResponse.results p) = length (results_array j).
Proof.
  intros Hj. destruct (page_accepted false j Hj) as (p & Hp & _ & Hres).
  exists p. split; [done |]. symmetry. by eapply Forall2_length.
Qed.

Lemma decode_page_results_length_witness :
  page_shape false Sample.long_page = true
  ∧ length (results_array Sample.long_page) = 33
  ∧ ∃ p, ListBooksResponse.parse_obj Sample.long_page = Some p
         ∧ length (ListBooksResponse.results p)
           = length (results_array Sample.long_page).
Proof.
  split; [vm_compute; reflexivity |]. split; [vm_compute; reflexivity |].
  apply (decode_page_results_length Sample.long_page). vm_compute; reflexivity.
Defined.

(** C3.  Round trip.  A Record and a Person are read back from their
    serialisation field for field; and a document of the wire format
    (every declared key, no other) is serialised back to the same
    document, dictionaries being compared key by key. *)
Theorem round_trip {V : Validators} {L : Lawful V}
    (R : Book.t) (P : Person.t) (jR jP : pyobj) :
  book_shape true jR = true →
  person_shape true jP = true →
  Book.parse_obj (Book.json R) = Some R
  ∧ Person.parse_obj (Person.json P) = Some P
  ∧ (∃ R', Book.parse_obj jR = Some R' ∧ Book.json R' = jR)
  ∧ (∃ P', Person.parse_obj jP = Some P' ∧ Person.json P' = jP).
Proof.
  intros HR HP. split; [apply (book_written R) |].
  split; [apply (person_written P) |]. split.
  - destruct (book_accepted true jR HR) as (R' & HR' & Hjson & _).
    exists R'. split; [| by apply Hjson]. by destruct jR.
  - destruct (person_accepted true jP HP) as (P' & HP' & Hjson).
    exists P'. split; [| by apply Hjson]. by destruct jP.
Qed.

(** C8.  A Person document with ["birth_year": null] decodes to a Person
    without birth year, and the Person is written back with the key
    [birth_year] holding [null]. *)
Theorem null_birth_year {V : Validators} {L : Lawful V} (d : gmap string pyobj) :
  person_shape false (PDict d) = true →
  d !! "birth_year" = Some PNone →
  ∃ p, Person.parse_obj (PDict d) = Some p
       ∧ Person.birth_year p = None
       ∧ Person.dict p !! "birth_year" = Some PNone.
Proof.
  intros Hd Hnull.
  destruct (person_accepted false _ Hd) as (p & Hp & _). exists p.
  split; [done |].
  apply person_checked in Hp as (Hb & _). unfold not_required in Hb.
  rewrite Hnull in Hb. simpl in Hb. injection Hb as Hb.
  split; [done |]. unfold Person.dict. by rewrite lookup_insert_eq, <- Hb.
Qed.

Lemma round_trip_witness :
  book_shape true (Sample.pride 1342) = true
  ∧ person_shape true Sample.homer = true
  ∧ Book.parse_obj (Book.json Sample.emma) = Some Sample.emma
  ∧ Person.parse_obj (Person.json Sample.jane) = Some Sample.jane
  ∧ (∃ R', Book.parse_obj (Sample.pride 1342) = Some R'
           ∧ Book.json R' = Sample.pride 1342)
  ∧ (∃ P', Person.parse_obj Sample.homer = Some P'
           ∧ Person.json P' = Sample.homer).
Proof.
  split; [vm_compute; reflexivity |]. split; [vm_compute; reflexivity |].
  apply (round_trip Sample.emma Sample.jane); vm_compute; reflexivity.
Defined.

Lemma null_birth_year_witness :
  ∃ d, Sample.homer = PDict d
       ∧ person_shape false (PDict d) = true
       ∧ d !! "birth_year" = Some PNone
       ∧ ∃ p, Person.parse_obj (PDict d) = Some p
              ∧ Person.birth_year p = None
              ∧ Person.dict p !! "birth_year" = Some PNone.
Proof.
  eexists. split; [reflexivity |]. split; [vm_compute; reflexivity |].
  split; [vm_compute; reflexivity |].
  apply null_birth_year; vm_compute; reflexivity.
Defined.







(** * The generator *)
Section claims.
Context {V : Validators} (session_get : Server).
Import Gutendex.

(** C1.  Along a chain of N pages the caller gets the records of the
    pages, in page order and in the order of each page, then
    [StopIteration]; the generator has issued N requests. *)
Theorem pagination (params0 : gmap string pyobj)
    (pages : list ListBooksResponse.t) (fuel k : nat) :
  chain session_get 0 (GET endpoint (Some params0)) pages →
  length (concat (ListBooksResponse.results <$> pages)) < k →
  2 * length pages + length (concat (ListBooksResponse.results <$> pages)) ≤ fuel →
  ∃ g', consume session_get fuel k (list_of_books params0)
        = (concat (ListBooksResponse.results <$> pages), g', Exhausted)
        ∧ at_ g' = Returned
        ∧ length (sent g') = length pages.
Proof.
  intros Hchain Hk Hfuel.
  destruct (chain_consumed session_get pages 0 _ [] eq_refl Hchain)
    as (more & Hlen & Hc).
  exists (Gen Returned more). split; [| done].
  eapply consume_mono; [exact Hc | done | done | lia | lia].
Qed.

(** C10.  When the [next] of a page is falsy, the empty string as well
    as [null], the records of the page are handed out, the generator
    stops and it issues no request after the one for that page. *)
Theorem falsy_next_stops (g : gen) (u : string)
    (ps : option (gmap string pyobj)) (page : ListBooksResponse.t)
    (fuel k : nat) :
  at_ g = AtGet u ps →
  get_page session_get (length (sent g)) (GET u ps) = inr page →
  truthy (ListBooksResponse.next page) = false →
  length (ListBooksResponse.results page) < k →
  length (ListBooksResponse.results page) + 2 ≤ fuel →
  let g' := Gen Returned (sent g ++ [GET u ps]) in
  consume session_get fuel k g = (ListBooksResponse.results page, g', Exhausted)
  ∧ ∀ fuel' k', ∃ o, consume session_get fuel' k' g' = ([], g', o).
Proof.
  intros Hg Hpage Hnext Hk Hfuel g'.
  split; [| intros fuel' k'; by apply returned_silent].
  set (rs := ListBooksResponse.results page) in *.
  replace fuel with (S (length rs + S (fuel - length rs - 2))) by lia.
  replace k with (S (length rs + (k - length rs - 1))) by lia.
  rewrite consume_S. unfold resume. rewrite Hg, Hpage. fold rs.
  replace (S (length rs + (k - length rs - 1)))
    with (length rs + S (k - length rs - 1)) by lia.
  rewrite consume_yield_from, consume_S. unfold resume. simpl at_. simpl sent.
  destruct (ListBooksResponse.next page) as [url |];
    [rewrite Hnext |]; by rewrite app_nil_r.
Qed.

Lemma needed_start k : needed session_get k [].
Proof. by intros n req Hn. Qed.

(** C9.  The parameters of the caller go with the first request only: a
    later request is made without parameters, to the URL that the page
    before it gives as [next]. *)
Theorem params_on_first_request_only (params0 : gmap string pyobj)
    (fuel k : nat) (books : list Book.t) (g' : gen) (o : outcome)
    (n : nat) (req : Request) :
  consume session_get fuel k (list_of_books params0) = (books, g', o) →
  sent g' !! n = Some req →
  match n with
  | 0 => req = GET endpoint (Some params0)
  | S m =>
      params req = None
      ∧ ∃ prev page,
          sent g' !! m = Some prev
          ∧ get_page session_get m prev = inr page
          ∧ ListBooksResponse.next page = Some (url req)
  end.
Proof.
  intros Hc Hn.
  eapply (consume_live _ params0 _ _ _ [] k) in Hc as (Hlinks & _);
    [| apply live_start | apply needed_start | done].
  by apply Hlinks.
Qed.

(** C6.  A caller that takes [k] records gets the first records of the
    pages fetched, and a request is issued only while the pages before
    it hold fewer than [k] records; closing the generator issues none. *)
Theorem no_request_beyond_need (params0 : gmap string pyobj)
    (fuel k : nat) (books : list Book.t) (g' : gen) (o : outcome)
    (n : nat) (req : Request) :
  consume session_get fuel k (list_of_books params0) = (books, g', o) →
  sent g' !! n = Some req →
  length (delivered session_get 0 (take n (sent g'))) < k
  ∧ books `prefix_of` delivered session_get 0 (sent g')
  ∧ sent (close g') = sent g'.
Proof.
  intros Hc Hn.
  eapply (consume_live _ params0 _ _ _ [] k) in Hc as (_ & Hneed & Ho);
    [| apply live_start | apply needed_start | done].
  split; [by eapply Hneed |]. split; [| done]. simpl in Ho.
  assert (∀ ys, live session_get params0 g' ys →
                ys `prefix_of` delivered session_get 0 (sent g')) as Hlive.
  { intros ys (_ & _ & Hpos). destruct (at_ g'); [| | done].
    - destruct Hpos as [-> _]. done.
    - destruct Hpos as [-> _]. by apply prefix_app_r. }
  destruct o as [| | e |].
  - destruct Ho as [_ Hl]. by apply Hlive.
  - destruct Ho as (_ & _ & ->). done.
  - destruct Ho as (_ & reqs & req' & -> & _ & Hpage & <-).
    rewrite delivered_snoc. by apply prefix_app_r.
  - destruct Ho as [_ Hl]. by apply Hlive.
Qed.

(** C4, amended.  When a request is answered with a 4xx or 5xx status,
    the call raises [HTTPError] with the response, whatever its body;
    that request is the last one, and every later call leaves the
    generator as it is.  The caller holds the records of the pages
    before. *)
Theorem http_error_raises (params0 : gmap string pyobj)
    (fuel k : nat) (books : list Book.t) (g' : gen) (o : outcome)
    (n : nat) (req : Request) (r : Response.t) :
  consume session_get fuel k (list_of_books params0) = (books, g', o) →
  sent g' !! n = Some req →
  session_get n req = Some r →
  (400 ≤ Response.status_code r < 600)%Z →
  o = Failed (HTTPError r)
  ∧ at_ g' = Returned
  ∧ length (sent g') = S n
  ∧ books = delivered session_get 0 (take n (sent g'))
  ∧ ∀ fuel' k', ∃ o', consume session_get fuel' k' g' = ([], g', o').
Proof.
  intros Hc Hn Hr Hstatus.
  assert (get_page session_get n req = inl (HTTPError r)) as Herr.
  { unfold get_page, Response.raise_for_status. rewrite Hr.
    destruct (Z.leb_spec 400 (Response.status_code r)); [| lia].
    destruct (Z.ltb_spec (Response.status_code r) 600); [done | lia]. }
  eapply (consume_live _ params0 _ _ _ [] k) in Hc as (_ & _ & Ho);
    [| apply live_start | apply needed_start | done].
  simpl in Ho.
  assert (answered session_get (sent g') → False) as Hans.
  { intros Hans. destruct (Hans n req Hn) as [page Hpage]. congruence. }
  destruct o as [| | e |].
  - destruct Ho as (_ & ? & _). done.
  - destruct Ho as (_ & ? & _). done.
  - destruct Ho as (Hret & reqs & req' & Hsent & Hreqs & Hpage & <-).
    rewrite Hsent in Hn.
    apply lookup_snoc_Some in Hn as [[_ Hn] | [-> ->]].
    { destruct (Hreqs n req Hn) as [page' Hpage']. congruence. }
    rewrite Hsent, length_app, take_app_length. simpl.
    split; [congruence |]. split; [done |]. split; [lia |]. split; [done |].
    intros fuel' k'. by apply returned_silent.
  - destruct Ho as (_ & ? & _). done.
Qed.
End claims.

Lemma pagination_witness :
  chain Sample.two_pages 0 (GET Gutendex.endpoint (Some Sample.french))
    [Sample.page1; Sample.page2]
  ∧ ∃ g', Gutendex.consume Sample.two_pages 6 3 (Gutendex.list_of_books Sample.french)
          = ([Sample.emma; Sample.persuasion], g', Gutendex.Exhausted)
          ∧ Gutendex.at_ g' = Gutendex.Returned
          ∧ length (Gutendex.sent g') = 2.
Proof.
  assert (chain Sample.two_pages 0 (GET Gutendex.endpoint (Some Sample.french))
            [Sample.page1; Sample.page2]) as Hchain.
  { split; [vm_compute; reflexivity |]. exists Sample.second.
    split; [reflexivity |]. split; [reflexivity |].
    split; vm_compute; reflexivity. }
  split; [exact Hchain |].
  apply (pagination Sample.two_pages Sample.french
           [Sample.page1; Sample.page2] 6 3 Hchain); simpl; lia.
Defined.

Lemma falsy_next_stops_witness :
  ListBooksResponse.next Sample.blank = Some EmptyString
  ∧ Gutendex.consume Sample.blank_next 3 2 (Gutendex.list_of_books ∅)
    = ([Sample.emma],
       Gutendex.Gen Gutendex.Returned [GET Gutendex.endpoint (Some ∅)],
       Gutendex.Exhausted).
Proof.
  split; [reflexivity |].
  apply (falsy_next_stops Sample.blank_next (Gutendex.list_of_books ∅)
           Gutendex.endpoint (Some ∅) Sample.blank 3 2);
    [reflexivity | vm_compute; reflexivity | reflexivity | simpl; lia | simpl; lia].
Defined.

Lemma params_on_first_request_only_witness :
  let g' := Gutendex.Gen Gutendex.Returned
              [GET Gutendex.endpoint (Some Sample.french); GET Sample.second None] in
  Gutendex.consume Sample.two_pages 6 3 (Gutendex.list_of_books Sample.french)
  = ([Sample.emma; Sample.persuasion], g', Gutendex.Exhausted)
  ∧ params (GET Sample.second None) = None
  ∧ ∃ prev page,
      Gutendex.sent g' !! 0 = Some prev
      ∧ Gutendex.get_page Sample.two_pages 0 prev = inr page
      ∧ ListBooksResponse.next page = Some Sample.second.
Proof.
  intros g'. split; [vm_compute; reflexivity |].
  apply (params_on_first_request_only Sample.two_pages Sample.french 6 3
           [Sample.emma; Sample.persuasion] g' Gutendex.Exhausted 1
           (GET Sample.second None)); vm_compute; reflexivity.
Defined.

Lemma no_request_beyond_need_witness :
  let g' := Gutendex.Gen (Gutendex.AtYield [] (Some Sample.second))
              [GET Gutendex.endpoint (Some Sample.french)] in
  Gutendex.consume Sample.two_pages 6 1 (Gutendex.list_of_books Sample.french)
  = ([Sample.emma], g', Gutendex.Taken)
  ∧ length (Gutendex.delivered Sample.two_pages 0 (take 0 (Gutendex.sent g'))) < 1
  ∧ [Sample.emma] `prefix_of` Gutendex.delivered Sample.two_pages 0 (Gutendex.sent g')
  ∧ Gutendex.sent (Gutendex.close g') = Gutendex.sent g'.
Proof.
  intros g'. split; [vm_compute; reflexivity |].
  apply (no_request_beyond_need Sample.two_pages Sample.french 6 1
           [Sample.emma] g' Gutendex.Taken 0
           (GET Gutendex.endpoint (Some Sample.french))); vm_compute; reflexivity.
Defined.

Lemma http_error_raises_witness :
  let r := Response.mk 500 (Some (ListBooksResponse.json Sample.page2)) in
  let g' := Gutendex.Gen Gutendex.Returned
              [GET Gutendex.endpoint (Some Sample.french); GET Sample.second None] in
  Gutendex.consume Sample.broken 6 3 (Gutendex.list_of_books Sample.french)
  = ([Sample.emma], g', Gutendex.Failed (HTTPError r))
  ∧ Sample.broken 1 (GET Sample.second None) = Some r
  ∧ (400 ≤ Response.status_code r < 600)%Z
  ∧ length (Gutendex.sent g') = 2
  ∧ [Sample.emma] = Gutendex.delivered Sample.broken 0 (take 1 (Gutendex.sent g'))
  ∧ ∀ fuel' k', ∃ o', Gutendex.consume Sample.broken fuel' k' g' = ([], g', o').
Proof.
  intros r g'. split; [vm_compute; reflexivity |].
  split; [vm_compute; reflexivity |]. split; [simpl; lia |].
  apply (http_error_raises Sample.broken Sample.french 6 3 [Sample.emma] g'
           (Gutendex.Failed (HTTPError r)) 1 (GET Sample.second None) r);
    [vm_compute; reflexivity | vm_compute; reflexivity | vm_compute; reflexivity
    | simpl; lia].
Defined.

(** C4, as the specification states it, fails: a response with status
    300 is not a success, [raise_for_status] lets it pass, and the page
    in its body is decoded and handed out. *)
Lemma non_success_counterexample :
  Sample.multiple_choices 0 (GET Gutendex.endpoint (Some ∅))
  = Sample.answer 300 Sample.page2
  ∧ success 300 = false
  ∧ Gutendex.consume Sample.multiple_choices 4 2 (Gutendex.list_of_books ∅)
    = ([Sample.persuasion],
       Gutendex.Gen Gutendex.Returned [GET Gutendex.endpoint (Some ∅)],
       Gutendex.Exhausted).
Proof. split; [reflexivity |]. split; vm_compute; reflexivity. Qed.

(** * Further properties of the decoder *)



(** X2.  An [Optional] field may be left out: a document without the key
    decodes like the document with the key set to [null]. *)
Theorem missing_optional_is_null {V : Validators} (d : gmap string pyobj) :
  Person.parse_obj (PDict (delete "birth_year" d))
  = Person.parse_obj (PDict (<["birth_year" := PNone]> d))
  ∧ Person.parse_obj (PDict (delete "death_year" d))
    = Person.parse_obj (PDict (<["death_year" := PNone]> d))
  ∧ Book.parse_obj (PDict (delete "copyright" d))
    = Book.parse_obj (PDict (<["copyright" := PNone]> d))
  ∧ ListBooksResponse.parse_obj (PDict (delete "next" d))
    = ListBooksResponse.parse_obj (PDict (<["next" := PNone]> d))
  ∧ ListBooksResponse.parse_obj (PDict (delete "previous" d))
    = ListBooksResponse.parse_obj (PDict (<["previous" := PNone]> d)).
Proof.
  unfold Person.parse_obj, Book.parse_obj, ListBooksResponse.parse_obj, model.
  simpl.
  unfold Person.validate_model, Book.validate_model,
    ListBooksResponse.validate_model, required, not_required.
  repeat split;
    repeat (rewrite lookup_delete_eq || rewrite lookup_insert_eq
            || (rewrite lookup_delete_ne by done)
            || (rewrite lookup_insert_ne by done));
    done.
Qed.

Lemma forallb_fmap {A} (f : pyobj → bool) (enc : A → pyobj) (xs : list A) :
  (∀ a, f (enc a) = true) → forallb f (enc <$> xs) = true.
Proof.
  intros Hf. induction xs as [| a xs IH]; [done |].
  csimpl. by rewrite Hf, IH.
Qed.

Lemma person_json_shape (p : Person.t) : person_shape true (Person.json p) = true.
Proof.
  unfold Person.json, person_shape, keys, has, Person.dict.
  repeat (rewrite lookup_insert_eq || (rewrite lookup_insert_ne by done)).
  rewrite bool_decide_eq_true_2.
  - by destruct (Person.birth_year p), (Person.death_year p).
  - rewrite !dom_insert_L, dom_empty_L. set_solver.
Qed.

Lemma book_json_shape (b : Book.t) : book_shape true (Book.json b) = true.
Proof.
  unfold Book.json, book_shape, keys, has, Book.dict.
  repeat (rewrite lookup_insert_eq || (rewrite lookup_insert_ne by done)).
  rewrite bool_decide_eq_true_2.
  - simpl. rewrite !forallb_fmap by (done || apply person_json_shape).
    by destruct (Book.copyright b).
  - rewrite !dom_insert_L, dom_empty_L. set_solver.
Qed.

(** X3.  What [dict()] and [json()] write has the shape of the wire
    format: every declared key, no other, each value of the declared
    type. *)
Theorem serialisation_shape (P : Person.t) (R : Book.t) (p : ListBooksResponse.t) :
  person_shape true (Person.json P) = true
  ∧ book_shape true (Book.json R) = true
  ∧ page_shape true (ListBooksResponse.json p) = true.
Proof.
  split; [apply person_json_shape |]. split; [apply book_json_shape |].
  unfold ListBooksResponse.json, page_shape, keys, has, ListBooksResponse.dict.
  repeat (rewrite lookup_insert_eq || (rewrite lookup_insert_ne by done)).
  rewrite bool_decide_eq_true_2.
  - simpl. rewrite forallb_fmap by apply book_json_shape.
    by destruct (ListBooksResponse.next p), (ListBooksResponse.previous p).
  - rewrite !dom_insert_L, dom_empty_L. set_solver.
Qed.

(** X4.  Round trip of a Page: a Page is read back from its
    serialisation, and a page document of the wire format is serialised
    back to the same document. *)
Theorem page_round_trip {V : Validators} {L : Lawful V}
    (p : ListBooksResponse.t) (j : pyobj) :
  page_shape true j = true →
  ListBooksResponse.parse_obj (ListBooksResponse.json p) = Some p
  ∧ ∃ p', ListBooksResponse.parse_obj j = Some p'
          ∧ ListBooksResponse.json p' = j.
Proof.
  intros Hj. split; [apply page_written |].
  destruct (page_accepted true j Hj) as (p' & Hp' & Hjson & _).
  exists p'. split; [done | by apply Hjson].
Qed.

Lemma page_round_trip_witness :
  page_shape true (Sample.page (PInt 1) PNone [Sample.pride 1342]) = true
  ∧ ListBooksResponse.parse_obj (ListBooksResponse.json Sample.page1)
    = Some Sample.page1
  ∧ ∃ p', ListBooksResponse.parse_obj (Sample.page (PInt 1) PNone [Sample.pride 1342])
          = Some p'
          ∧ ListBooksResponse.json p' = Sample.page (PInt 1) PNone [Sample.pride 1342].
Proof.
  split; [vm_compute; reflexivity |].
  apply (page_round_trip Sample.page1). vm_compute; reflexivity.
Defined.

(** X5.  The records of an accepted page are the items of the [results]
    array, one for one and in the order of the array; one item that is
    not a valid Record rejects the whole page. *)
Theorem results_one_to_one {V : Validators} (d : gmap string pyobj)
    (l : list pyobj) :
  d !! "results" = Some (PList l) →
  (∀ p, ListBooksResponse.parse_obj (PDict d) = Some p →
        Forall2 (λ x b, x ≠ PNone ∧ Book.validate x = Some b)
          l (ListBooksResponse.results p))
  ∧ (∀ x, x ∈ l → singleton Book.validate x = None →
          ListBooksResponse.parse_obj (PDict d) = None).
Proof.
  intros Hl.
  assert (∀ p, ListBooksResponse.parse_obj (PDict d) = Some p →
               Forall2 (λ x b, singleton Book.validate x = Some b)
                 l (ListBooksResponse.results p)) as Hall.
  { intros p Hp. apply page_checked in Hp as (_ & _ & _ & Hres).
    unfold required in Hres. rewrite Hl in Hres. by apply mapM_Some. }
  split.
  - intros p Hp. eapply Forall2_impl; [by apply Hall |].
    intros x b Hx. by destruct x.
  - intros x Hx Hbad.
    destruct (ListBooksResponse.parse_obj (PDict d)) as [p |] eqn:Hp; [| done].
    specialize (Hall p eq_refl).
    apply list_elem_of_lookup in Hx as [i Hi].
    destruct (Forall2_lookup_l _ _ _ _ _ Hall Hi) as (b & _ & Hb). congruence.
Qed.

Lemma results_one_to_one_witness :
  (Mock.no_next !! "results" = Some (PList [Book.json Sample.persuasion])
   ∧ ListBooksResponse.parse_obj (PDict Mock.no_next)
     = Some (ListBooksResponse.mk 1 None None [Sample.persuasion])
   ∧ Forall2 (λ x b, x ≠ PNone ∧ Book.validate x = Some b)
       [Book.json Sample.persuasion] [Sample.persuasion])
  ∧ Mock.spoiled !! "results"
    = Some (PList [Book.json Sample.persuasion; Mock.untitled])
  ∧ Mock.untitled ∈ [Book.json Sample.persuasion; Mock.untitled]
  ∧ singleton Book.validate Mock.untitled = None
  ∧ ListBooksResponse.parse_obj (PDict Mock.spoiled) = None.
Proof.
  split.
  { split; [vm_compute; reflexivity |]. split; [vm_compute; reflexivity |].
    destruct (results_one_to_one Mock.no_next [Book.json Sample.persuasion])
      as [Hgood _]; [vm_compute; reflexivity |].
    apply (Hgood (ListBooksResponse.mk 1 None None [Sample.persuasion])).
    vm_compute; reflexivity. }
  split; [vm_compute; reflexivity |].
  split; [apply list_elem_of_In; simpl; auto |].
  split; [vm_compute; reflexivity |].
  destruct (results_one_to_one Mock.spoiled
              [Book.json Sample.persuasion; Mock.untitled]) as [_ Hbad];
    [vm_compute; reflexivity |].
  apply (Hbad Mock.untitled); [apply list_elem_of_In; simpl; auto |].
  vm_compute; reflexivity.
Defined.

(** X12.  The three serialisations of the script (lines 126-141): the
    custom-root helper writes the very list that [json.dumps] writes for
    the dictionaries of the first three books, the other helper writes it
    under the key [books]; each helper is read back from what it writes,
    and the custom-root helper does not read what the other one writes. *)
Theorem helper_round_trips {V : Validators} {L : Lawful V} (books : list Book.t) :
  Main.SerializeHelperRoot.json (Main.helper_root books) = Main.dumps_dicts books
  ∧ Main.SerializeHelper.json (Main.helper books)
    = PDict (<["books" := Main.dumps_dicts books]> ∅)
  ∧ Main.SerializeHelper.parse_obj (Main.SerializeHelper.json (Main.helper books))
    = Some (Main.helper books)
  ∧ Main.SerializeHelperRoot.parse_obj
      (Main.SerializeHelperRoot.json (Main.helper_root books))
    = Some (Main.helper_root books)
  ∧ Main.SerializeHelperRoot.parse_obj
      (Main.SerializeHelper.json (Main.helper books))
    = None.
Proof.
  split; [done |]. split; [done |]. split; [| split].
  - unfold Main.SerializeHelper.parse_obj, Main.SerializeHelper.json, model,
      Main.SerializeHelper.validate_model, Main.SerializeHelper.dict, required.
    cbn [dict_validator mbind option_bind]. rewrite lookup_insert_eq.
    by rewrite (list_written _ _ _ book_written).
  - unfold Main.SerializeHelperRoot.parse_obj, Main.SerializeHelperRoot.json,
      Main.SerializeHelperRoot.enforce_dict_if_root, model,
      Main.SerializeHelperRoot.validate_model, required.
    cbn [dict_validator mbind option_bind]. rewrite lookup_insert_eq.
    by rewrite (list_written _ _ _ book_written).
  - unfold Main.SerializeHelperRoot.parse_obj, Main.SerializeHelper.json,
      Main.SerializeHelperRoot.enforce_dict_if_root, Main.SerializeHelper.dict.
    rewrite bool_decide_eq_false_2.
    + unfold model, Main.SerializeHelperRoot.validate_model, required.
      cbn [dict_validator mbind option_bind]. by rewrite lookup_insert_eq.
    + rewrite dom_insert_L, dom_empty_L. intros Hdom.
      assert ("books" ∈ ({["__root__"]} : gset string)) as Hin
        by (rewrite <- Hdom; set_solver).
      by apply elem_of_singleton in Hin.
Qed.

Lemma helper_round_trips_witness :
  Main.SerializeHelperRoot.json
    (Main.helper_root [Sample.emma; Sample.persuasion; Sample.emma; Sample.emma])
  = PList [Book.json Sample.emma; Book.json Sample.persuasion; Book.json Sample.emma]
  ∧ Main.SerializeHelperRoot.parse_obj
      (PList [Book.json Sample.emma; Book.json Sample.persuasion; Book.json Sample.emma])
    = Some (Main.SerializeHelperRoot.mk [Sample.emma; Sample.persuasion; Sample.emma]).
Proof.
  split; [reflexivity |].
  apply (helper_round_trips [Sample.emma; Sample.persuasion; Sample.emma; Sample.emma]).
Defined.

(** * Further properties of the generator *)
Section traversals.
Context {V : Validators} (session_get : Server).
Import Gutendex.

Lemma consume_fuel_mono fuel :
  ∀ k g bs g' o fuel',
    consume session_get fuel k g = (bs, g', o) →
    o ≠ Pending → fuel ≤ fuel' →
    consume session_get fuel' k g = (bs, g', o).
Proof.
  induction fuel as [| fuel IH]; intros k g bs g' o fuel' Hc HP Hf.
  { destruct k; simpl in Hc; injection Hc as <- <- <-; [| done].
    by rewrite consume_0. }
  destruct k as [| k]; [rewrite consume_0 in *; done |].
  destruct fuel' as [| fuel']; [lia |]. rewrite consume_S in *.
  destruct (resume session_get g) as [g1 [[b | | e] |]]; [| done | done |].
  - destruct (consume session_get fuel k g1) as [[bs1 g1'] o1] eqn:Hc1.
    injection Hc as <- <- <-.
    rewrite (IH _ _ _ _ _ fuel' Hc1); [done | done | lia].
  - apply (IH _ _ _ _ _ fuel' Hc); [done | lia].
Qed.

Lemma consume_yield_part k :
  ∀ rest fuel reqs next_url,
    k ≤ length rest → k ≤ fuel →
    consume session_get fuel k (Gen (AtYield rest next_url) reqs)
    = (take k rest, Gen (AtYield (drop k rest) next_url) reqs, Taken).
Proof.
  induction k as [| k IH]; intros rest fuel reqs next_url Hk Hf.
  { by rewrite consume_0. }
  destruct rest as [| b rest]; [simpl in Hk; lia |].
  destruct fuel as [| fuel]; [lia |].
  rewrite consume_S. unfold resume. simpl.
  rewrite IH by (simpl in Hk; lia). done.
Qed.

Lemma live_prefix params0 g ys :
  live session_get params0 g ys →
  ys `prefix_of` delivered session_get 0 (sent g).
Proof.
  intros (_ & _ & Hpos). destruct (at_ g); [| | done].
  - destruct Hpos as [-> _]. done.
  - destruct Hpos as [-> _]. by apply prefix_app_r.
Qed.

(** X6.  Any failure of a page request ends the traversal: when
    [session.get] raises, when the body is not JSON, or when the body is
    not a valid page, the call raises that error; the request is the last
    one issued, the caller holds the records of the pages before, and
    later calls do nothing. *)
Theorem failure_is_fatal (params0 : gmap string pyobj)
    (fuel k : nat) (books : list Book.t) (g' : gen) (o : outcome)
    (n : nat) (req : Request) (e : exn) :
  consume session_get fuel k (list_of_books params0) = (books, g', o) →
  sent g' !! n = Some req →
  (session_get n req = None ∧ e = RequestException)
  ∨ (∃ r, session_get n req = Some r
          ∧ Response.raise_for_status r = false
          ∧ Response.json r = None
          ∧ e = JSONDecodeError)
  ∨ (∃ r data, session_get n req = Some r
               ∧ Response.raise_for_status r = false
               ∧ Response.json r = Some data
               ∧ ListBooksResponse.parse_obj data = None
               ∧ e = ValidationError) →
  o = Failed e
  ∧ at_ g' = Returned
  ∧ length (sent g') = S n
  ∧ books = delivered session_get 0 (take n (sent g'))
  ∧ ∀ fuel' k', ∃ o', consume session_get fuel' k' g' = ([], g', o').
Proof.
  intros Hc Hn Hwhy.
  assert (get_page session_get n req = inl e) as Herr.
  { unfold get_page.
    destruct Hwhy as [[-> ->] | [(r & -> & -> & -> & ->)
                                | (r & data & -> & -> & -> & -> & ->)]]; done. }
  eapply (consume_live _ params0 _ _ _ [] k) in Hc as (_ & _ & Ho);
    [| apply live_start | by intros ? ? ? | done].
  simpl in Ho.
  assert (answered session_get (sent g') → False) as Hans.
  { intros Hans. destruct (Hans n req Hn) as [page Hpage]. congruence. }
  destruct o as [| | e' |].
  - destruct Ho as (_ & ? & _). done.
  - destruct Ho as (_ & ? & _). done.
  - destruct Ho as (Hret & reqs & req' & Hsent & Hreqs & Hpage & <-).
    rewrite Hsent in Hn.
    apply lookup_snoc_Some in Hn as [[_ Hn] | [-> ->]].
    { destruct (Hreqs n req Hn) as [page' Hpage']. congruence. }
    rewrite Hsent, length_app, take_app_length. simpl.
    split; [congruence |]. split; [done |]. split; [lia |]. split; [done |].
    intros fuel' k'. by apply returned_silent.
  - destruct Ho as (_ & ? & _). done.
Qed.

(** X8.  A page whose document has no key [next], or has it [null], is
    the last page: its records are handed out, then the generator
    stops, and the request for that page is the last one. *)
Theorem page_without_next_is_last (g : gen) (u : string)
    (ps : option (gmap string pyobj)) (r : Response.t)
    (d : gmap string pyobj) (page : ListBooksResponse.t) (fuel k : nat) :
  at_ g = AtGet u ps →
  session_get (length (sent g)) (GET u ps) = Some r →
  Response.raise_for_status r = false →
  Response.json r = Some (PDict d) →
  d !! "next" = None ∨ d !! "next" = Some PNone →
  ListBooksResponse.parse_obj (PDict d) = Some page →
  length (ListBooksResponse.results page) < k →
  length (ListBooksResponse.results page) + 2 ≤ fuel →
  consume session_get fuel k g
  = (ListBooksResponse.results page,
     Gen Returned (sent g ++ [GET u ps]), Exhausted).
Proof.
  intros Hg Hr Hstatus Hjson Hnext Hpage Hk Hfuel.
  assert (ListBooksResponse.next page = None) as Hnone.
  { pose proof Hpage as Hp. apply page_checked in Hp as (_ & Hn & _).
    unfold not_required in Hn.
    destruct Hnext as [Hnext | Hnext]; rewrite Hnext in Hn;
      simpl in Hn; congruence. }
  assert (get_page session_get (length (sent g)) (GET u ps) = inr page) as Hget.
  { unfold get_page. by rewrite Hr, Hstatus, Hjson, Hpage. }
  set (rs := ListBooksResponse.results page) in *.
  replace fuel with (S (length rs + S (fuel - length rs - 2))) by lia.
  replace k with (S (length rs + (k - length rs - 1))) by lia.
  rewrite consume_S. unfold resume. rewrite Hg, Hget. fold rs.
  replace (S (length rs + (k - length rs - 1)))
    with (length rs + S (k - length rs - 1)) by lia.
  rewrite consume_yield_from, consume_S. unfold resume. simpl at_. simpl sent.
  rewrite Hnone. by rewrite app_nil_r.
Qed.


Lemma consume_yield_over rest fuel k reqs next_url :
  length rest ≤ fuel → length rest ≤ k →
  consume session_get fuel k (Gen (AtYield rest next_url) reqs)
  = let '(bs, g', o) :=
      consume session_get (fuel - length rest) (k - length rest)
        (Gen (AtYield [] next_url) reqs) in
    (rest ++ bs, g', o).
Proof.
  intros Hf Hk. rewrite <- consume_yield_from. f_equal; lia.
Qed.

Lemma chain_taken pages :
  ∀ n req reqs k,
    length reqs = n →
    chain session_get n req pages →
    1 ≤ k →
    k ≤ length (concat (ListBooksResponse.results <$> pages)) →
    ∃ g', consume session_get (2 * length pages + k) k
            (Gen (AtGet (url req) (params req)) reqs)
          = (take k (concat (ListBooksResponse.results <$> pages)), g', Taken)
          ∧ length (sent g') ≤ length reqs + length pages.
Proof.
  induction pages as [| page pages IH]; intros n req reqs k Hn Hchain Hk1 Hk;
    [done |].
  destruct Hchain as [Hpage Hrest]. destruct req as [u ps]. simpl url. simpl params.
  rewrite fmap_cons in *. simpl concat in *. rewrite length_app in Hk.
  set (rs := ListBooksResponse.results page) in *.
  set (rest := concat (ListBooksResponse.results <$> pages)) in *.
  simpl length.
  replace (2 * S (length pages) + k) with (S (S (2 * length pages + k))) by lia.
  destruct k as [| k]; [lia |].
  rewrite consume_S. unfold resume. simpl at_. simpl sent.
  rewrite Hn, Hpage. fold rs.
  destruct (decide (S k ≤ length rs)) as [Hin | Hout].
  - rewrite consume_yield_part by lia. eexists. split.
    + by rewrite take_app_le by lia.
    + simpl. rewrite length_app. simpl. lia.
  - rewrite consume_yield_over by lia.
    replace (S (2 * length pages + S k) - length rs)
      with (S (2 * length pages + (S k - length rs))) by lia.
    destruct (S k - length rs) as [| k'] eqn:Hk'; [lia |].
    rewrite consume_S. unfold resume. simpl at_. simpl sent.
    destruct pages as [| page' pages'].
    { unfold rest in Hk. simpl in Hk. lia. }
    destruct Hrest as (u' & Hnext & Htruthy & Hchain). rewrite Hnext, Htruthy.
    destruct (IH (S n) (GET u' None) (reqs ++ [GET u ps]) (S k'))
      as (g' & Hc & Hlen).
    { rewrite length_app. simpl. lia. }
    { done. }
    { lia. }
    { fold rest. lia. }
    simpl url in Hc. simpl params in Hc. fold rest in Hc. rewrite Hc.
    exists g'. split.
    + rewrite take_app_ge by lia. by rewrite Hk'.
    + rewrite length_app in Hlen. simpl in Hlen |- *. lia.
Qed.

(** X9.  Along a chain of pages, a caller that takes [k] records, no more
    than the pages hold, gets exactly the first [k] records of the
    concatenated pages and is not told that the sequence has ended; no
    more requests are issued than there are pages. *)
Theorem first_records_of_chain (params0 : gmap string pyobj)
    (pages : list ListBooksResponse.t) (fuel k : nat) :
  chain session_get 0 (GET endpoint (Some params0)) pages →
  k ≤ length (concat (ListBooksResponse.results <$> pages)) →
  2 * length pages + k ≤ fuel →
  ∃ g', consume session_get fuel k (list_of_books params0)
        = (take k (concat (ListBooksResponse.results <$> pages)), g', Taken)
        ∧ length (sent g') ≤ length pages.
Proof.
  intros Hchain Hk Hfuel. destruct k as [| k].
  { rewrite consume_0. eexists. split; [done |]. simpl. lia. }
  destruct (chain_taken pages 0 _ [] (S k) eq_refl Hchain) as (g' & Hc & Hlen);
    [lia | done |].
  exists g'. split; [| done].
  eapply consume_fuel_mono; [exact Hc | done | lia].
Qed.

Lemma going_consume fuel :
  (∀ n req, ∃ page, get_page session_get n req = inr page
                    ∧ truthy (ListBooksResponse.next page) = true) →
  ∀ k g bs g' o,
    going g →
    consume session_get fuel k g = (bs, g', o) →
    (o = Taken ∨ o = Pending) ∧ going g'.
Proof.
  intros Hserver. induction fuel as [| fuel IH]; intros k g bs g' o Hg Hc.
  { destruct k; simpl in Hc; injection Hc as <- <- <-; auto. }
  destruct k as [| k]; [rewrite consume_0 in Hc; injection Hc as <- <- <-; auto |].
  rewrite consume_S in Hc. unfold resume in Hc. unfold going in Hg.
  destruct g as [pc reqs]. simpl in *.
  destruct pc as [u ps | [| b rest] next_url |]; [| | | done].
  - destruct (Hserver (length reqs) (GET u ps)) as (page & Hpage & Hnext).
    rewrite Hpage in Hc. by eapply IH in Hc.
  - destruct next_url as [url |]; [| done]. rewrite Hg in Hc.
    by eapply IH in Hc.
  - destruct (consume session_get fuel k (Gen (AtYield rest next_url) reqs))
      as [[bs1 g1] o1] eqn:Hc1.
    injection Hc as <- <- <-. by eapply IH in Hc1.
Qed.

(** X7.  The loop has no guard but the truthiness of [next]: as long as
    every request is answered with a page that names a next page, the
    generator never raises [StopIteration] and never fails, however many
    records are taken. *)
Theorem no_end_while_next_truthy (params0 : gmap string pyobj)
    (fuel k : nat) (books : list Book.t) (g' : gen) (o : outcome) :
  (∀ n req, ∃ page, get_page session_get n req = inr page
                    ∧ truthy (ListBooksResponse.next page) = true) →
  consume session_get fuel k (list_of_books params0) = (books, g', o) →
  (o = Taken ∨ o = Pending) ∧ at_ g' ≠ Returned.
Proof.
  intros Hserver Hc.
  eapply going_consume in Hc as [Ho Hg]; [| done | done].
  split; [done |]. intros Hret. unfold going in Hg. by rewrite Hret in Hg.
Qed.

Lemma going_taken k :
  (∀ n req, ∃ page, get_page session_get n req = inr page
                    ∧ truthy (ListBooksResponse.next page) = true
                    ∧ ListBooksResponse.results page ≠ []) →
  ∀ fuel g,
    going g → 3 * k ≤ fuel →
    ∃ bs g', consume session_get fuel k g = (bs, g', Taken) ∧ length bs = k.
Proof.
  intros Hserver. induction k as [| k IH]; intros fuel g Hg Hfuel.
  { rewrite consume_0. eauto. }
  destruct fuel as [| [| [| fuel]]]; [lia | lia | lia |].
  assert (∀ b rest next_url reqs f,
            truthy next_url = true → 3 * k ≤ f →
            ∃ bs g', consume session_get (S f) (S k)
                       (Gen (AtYield (b :: rest) next_url) reqs)
                     = (bs, g', Taken) ∧ length bs = S k) as Hyield.
  { intros b rest next_url reqs f Hnext Hf. rewrite consume_S. unfold resume. simpl.
    destruct (IH f (Gen (AtYield rest next_url) reqs)) as (bs & g' & -> & Hlen);
      [done | lia |].
    exists (b :: bs), g'. split; [done | simpl; lia]. }
  assert (∀ u ps reqs f,
            3 * k ≤ f →
            ∃ bs g', consume session_get (S (S f)) (S k) (Gen (AtGet u ps) reqs)
                     = (bs, g', Taken) ∧ length bs = S k) as Hget.
  { intros u ps reqs f Hf. rewrite consume_S. unfold resume. simpl.
    destruct (Hserver (length reqs) (GET u ps)) as (page & -> & Hnext & Hrs).
    destruct (ListBooksResponse.results page) as [| b rest]; [done |].
    by apply Hyield. }
  unfold going in Hg. destruct g as [pc reqs]. simpl in Hg.
  destruct pc as [u ps | [| b rest] next_url |]; [| | | done].
  - apply Hget. lia.
  - destruct next_url as [[| c url] |]; [done | | done].
    rewrite consume_S. unfold resume. simpl. apply Hget. lia.
  - apply Hyield; [done | lia].
Qed.

(** X13.  Against a server whose every page has records and names a next
    page, any number of records can be taken: three resumptions for each
    record are enough. *)
Theorem endless_supply (params0 : gmap string pyobj) (fuel k : nat) :
  (∀ n req, ∃ page, get_page session_get n req = inr page
                    ∧ truthy (ListBooksResponse.next page) = true
                    ∧ ListBooksResponse.results page ≠ []) →
  3 * k ≤ fuel →
  ∃ books g', consume session_get fuel k (list_of_books params0)
              = (books, g', Taken)
              ∧ length books = k.
Proof. intros Hserver Hfuel. by apply going_taken. Qed.

Lemma consume_prefix params0 fuel k g ys m bs g' o :
  live session_get params0 g ys →
  needed session_get m (sent g) →
  length ys + k ≤ m →
  consume session_get fuel k g = (bs, g', o) →
  (ys ++ bs) `prefix_of` delivered session_get 0 (sent g').
Proof.
  intros Hlive Hneed Hm Hc.
  eapply consume_live in Hc as (_ & _ & Ho); [| done | done | done].
  destruct o as [| | e |].
  - destruct Ho as [_ Hl]. by eapply live_prefix.
  - destruct Ho as (_ & _ & ->). done.
  - destruct Ho as (_ & reqs & req' & -> & _ & Hpage & <-).
    rewrite delivered_snoc. by apply prefix_app_r.
  - destruct Ho as [_ Hl]. by eapply live_prefix.
Qed.

Lemma zip_range_live params0 fuel k :
  ∀ g ys m bs g' o,
    live session_get params0 g ys →
    needed session_get m (sent g) →
    length ys + S k ≤ m →
    Main.zip_range session_get fuel k g = (bs, g', o) →
    needed session_get m (sent g')
    ∧ length bs ≤ k
    ∧ (ys ++ bs) `prefix_of` delivered session_get 0 (sent g')
    ∧ (o = Taken →
       length bs = k
       ∧ ∃ b rest, delivered session_get 0 (sent g') = (ys ++ bs) ++ b :: rest).
Proof.
  induction k as [| k IH]; intros g ys m bs g' o Hlive Hneed Hm Hz;
    simpl in Hz;
    destruct (consume session_get fuel 1 g) as [[bs1 g1] o1] eqn:Hc1;
    assert (length ys + 1 ≤ m) as Hm1 by lia;
    pose proof (consume_prefix params0 fuel 1 g ys m bs1 g1 o1
                  Hlive Hneed Hm1 Hc1) as Hpre;
    eapply (consume_live _ params0 _ _ _ ys m) in Hc1 as (_ & Hneed1 & Ho1);
    try done.
  - (* the range is empty: whatever the generator gave is dropped *)
    assert ((bs, g', o) = ([], g1, o1)) as Heq.
    { destruct bs1 as [| b [| ? ?]]; destruct o1; congruence. }
    injection Heq as -> -> ->. rewrite app_nil_r.
    split; [done |]. split; [done |].
    split; [by etrans; [apply prefix_app_r | exact Hpre] |].
    intros ->. split; [done |]. destruct Ho1 as [Hlen _].
    destruct bs1 as [| b [| ? ?]]; try done.
    destruct Hpre as [rest Hrest]. exists b, rest.
    by rewrite Hrest, <- !app_assoc.
  - destruct o1 as [| | e |];
      try (assert ((bs, g', o) = ([], g1, Exhausted)
                   ∨ (∃ e, (bs, g', o) = ([], g1, Failed e))
                   ∨ (bs, g', o) = ([], g1, Pending)) as Heq
             by (destruct bs1 as [| b [| ? ?]]; eauto);
           assert (bs = [] ∧ g' = g1 ∧ o ≠ Taken) as (-> & -> & Hno)
             by (destruct Heq as [Heq | [[? Heq] | Heq]];
                 injection Heq as -> -> ->; done);
           rewrite app_nil_r; split; [done |]; split; [simpl; lia |];
           split; [by etrans; [apply prefix_app_r | exact Hpre] | done]).
    destruct Ho1 as [Hlen Hlive1].
    destruct bs1 as [| b [| ? ?]]; try done.
    destruct (Main.zip_range session_get fuel k g1) as [[bs2 g2] o2] eqn:Hz2.
    injection Hz as <- <- <-.
    eapply (IH _ (ys ++ [b]) m) in Hz2 as (Hn2 & Hl2 & Hp2 & Ht2);
      [| done | done | rewrite length_app; simpl; lia].
    rewrite <- app_assoc in Hp2. simpl in Hp2.
    split; [done |]. split; [simpl; lia |]. split; [done |].
    intros Ho. destruct (Ht2 Ho) as (Hlen2 & b' & rest & Hrest).
    split; [simpl; lia |]. exists b', rest.
    by rewrite Hrest, <- !app_assoc.
Qed.

(** X11.  The comprehension over [zip(gen, range(k))] of lines 113 and
    117 keeps at most [k] records, the first ones of the pages fetched,
    but asks the generator for one more: a request is issued while the
    pages before it hold fewer than [k + 1] records, and when the list is
    complete a record beyond the [k] kept has been fetched. *)
Theorem zip_takes_one_more (params0 : gmap string pyobj)
    (fuel k : nat) (books : list Book.t) (g' : gen) (o : outcome) :
  Main.zip_range session_get fuel k (list_of_books params0) = (books, g', o) →
  length books ≤ k
  ∧ books `prefix_of` delivered session_get 0 (sent g')
  ∧ needed session_get (S k) (sent g')
  ∧ (o = Taken →
     length books = k
     ∧ ∃ b rest, delivered session_get 0 (sent g') = books ++ b :: rest).
Proof.
  intros Hz.
  eapply (zip_range_live params0 _ _ _ [] (S k)) in Hz
    as (Hneed & Hlen & Hpre & Htaken);
    [| apply live_start | by intros ? ? ? | simpl; lia].
  done.
Qed.
End traversals.

Lemma failure_is_fatal_witness :
  let g' := Gutendex.Gen Gutendex.Returned
              [GET Gutendex.endpoint (Some Sample.french); GET Sample.second None] in
  Gutendex.consume Mock.garbled 6 3 (Gutendex.list_of_books Sample.french)
  = ([Sample.emma], g', Gutendex.Failed JSONDecodeError)
  ∧ Mock.garbled 1 (GET Sample.second None) = Some (Response.mk 200 None)
  ∧ length (Gutendex.sent g') = 2
  ∧ [Sample.emma] = Gutendex.delivered Mock.garbled 0 (take 1 (Gutendex.sent g'))
  ∧ ∀ fuel' k', ∃ o', Gutendex.consume Mock.garbled fuel' k' g' = ([], g', o').
Proof.
  intros g'. split; [vm_compute; reflexivity |]. split; [vm_compute; reflexivity |].
  apply (failure_is_fatal Mock.garbled Sample.french 6 3 [Sample.emma] g'
           (Gutendex.Failed JSONDecodeError) 1 (GET Sample.second None)
           JSONDecodeError);
    [vm_compute; reflexivity | vm_compute; reflexivity |].
  right. left. exists (Response.mk 200 None). repeat split; vm_compute; reflexivity.
Defined.

Lemma page_without_next_is_last_witness :
  Mock.no_next !! "next" = None
  ∧ Gutendex.consume Mock.ending 3 2 (Gutendex.list_of_books ∅)
    = ([Sample.persuasion],
       Gutendex.Gen Gutendex.Returned [GET Gutendex.endpoint (Some ∅)],
       Gutendex.Exhausted).
Proof.
  split; [vm_compute; reflexivity |].
  apply (page_without_next_is_last Mock.ending (Gutendex.list_of_books ∅)
           Gutendex.endpoint (Some ∅) (Response.mk 200 (Some (PDict Mock.no_next)))
           Mock.no_next (ListBooksResponse.mk 1 None None [Sample.persuasion]) 3 2);
    [reflexivity | reflexivity | reflexivity | reflexivity
    | left; vm_compute; reflexivity | vm_compute; reflexivity
    | simpl; lia | simpl; lia].
Defined.


Lemma first_records_of_chain_witness :
  chain Mock.pairs 0 (GET Gutendex.endpoint (Some ∅))
    [Mock.pair1; Mock.pair2; Mock.pair3]
  ∧ ∃ g', Gutendex.consume Mock.pairs 9 3 (Gutendex.list_of_books ∅)
          = ([Sample.emma; Sample.persuasion; Sample.persuasion], g', Gutendex.Taken)
          ∧ length (Gutendex.sent g') ≤ 3.
Proof.
  assert (chain Mock.pairs 0 (GET Gutendex.endpoint (Some ∅))
            [Mock.pair1; Mock.pair2; Mock.pair3]) as Hchain.
  { split; [vm_compute; reflexivity |]. exists Sample.second.
    split; [reflexivity |]. split; [reflexivity |].
    split; [vm_compute; reflexivity |]. exists Mock.third.
    split; [reflexivity |]. split; [reflexivity |].
    split; vm_compute; reflexivity. }
  split; [exact Hchain |].
  apply (first_records_of_chain Mock.pairs ∅
           [Mock.pair1; Mock.pair2; Mock.pair3] 9 3 Hchain); simpl; lia.
Defined.

Lemma no_end_while_next_truthy_witness :
  let g' := Gutendex.Gen (Gutendex.AtYield [] (Some Gutendex.endpoint))
              [GET Gutendex.endpoint (Some ∅); GET Gutendex.endpoint None] in
  (∀ n req, ∃ page, Gutendex.get_page Mock.looping n req = inr page
                    ∧ truthy (ListBooksResponse.next page) = true)
  ∧ Gutendex.consume Mock.looping 6 2 (Gutendex.list_of_books ∅)
    = ([Sample.emma; Sample.emma], g', Gutendex.Taken)
  ∧ (Gutendex.Taken = Gutendex.Taken ∨ Gutendex.Taken = Gutendex.Pending)
  ∧ Gutendex.at_ g' ≠ Gutendex.Returned.
Proof.
  intros g'.
  assert (∀ n req, ∃ page, Gutendex.get_page Mock.looping n req = inr page
                           ∧ truthy (ListBooksResponse.next page) = true) as Hs.
  { intros n req. exists Mock.loop. split; vm_compute; reflexivity. }
  split; [exact Hs |]. split; [vm_compute; reflexivity |].
  apply (no_end_while_next_truthy Mock.looping ∅ 6 2
           [Sample.emma; Sample.emma] g' Gutendex.Taken Hs).
  vm_compute; reflexivity.
Defined.

Lemma endless_supply_witness :
  (∀ n req, ∃ page, Gutendex.get_page Mock.looping n req = inr page
                    ∧ truthy (ListBooksResponse.next page) = true
                    ∧ ListBooksResponse.results page ≠ [])
  ∧ ∃ books g', Gutendex.consume Mock.looping 30 10 (Gutendex.list_of_books ∅)
                = (books, g', Gutendex.Taken)
                ∧ length books = 10.
Proof.
  assert (∀ n req, ∃ page, Gutendex.get_page Mock.looping n req = inr page
                           ∧ truthy (ListBooksResponse.next page) = true
                           ∧ ListBooksResponse.results page ≠ []) as Hs.
  { intros n req. exists Mock.loop.
    split; [vm_compute; reflexivity |]. split; [reflexivity | discriminate]. }
  split; [exact Hs |].
  apply (endless_supply Mock.looping ∅ 30 10 Hs). simpl; lia.
Defined.

Lemma zip_takes_one_more_witness :
  let g' := Gutendex.Gen (Gutendex.AtYield [Sample.emma] (Some Mock.third))
              [GET Gutendex.endpoint (Some ∅); GET Sample.second None] in
  Main.zip_range Mock.pairs 5 2 (Gutendex.list_of_books ∅)
  = ([Sample.emma; Sample.persuasion], g', Gutendex.Taken)
  ∧ Gutendex.consume Mock.pairs 5 2 (Gutendex.list_of_books ∅)
    = ([Sample.emma; Sample.persuasion],
       Gutendex.Gen (Gutendex.AtYield [] (Some Sample.second))
         [GET Gutendex.endpoint (Some ∅)],
       Gutendex.Taken)
  ∧ length [Sample.emma; Sample.persuasion] ≤ 2
  ∧ [Sample.emma; Sample.persuasion]
      `prefix_of` Gutendex.delivered Mock.pairs 0 (Gutendex.sent g')
  ∧ needed Mock.pairs 3 (Gutendex.sent g')
  ∧ (Gutendex.Taken = Gutendex.Taken →
     length [Sample.emma; Sample.persuasion] = 2
     ∧ ∃ b rest, Gutendex.delivered Mock.pairs 0 (Gutendex.sent g')
                 = [Sample.emma; Sample.persuasion] ++ b :: rest).
Proof.
  intros g'. split; [vm_compute; reflexivity |]. split; [vm_compute; reflexivity |].
  apply (zip_takes_one_more Mock.pairs ∅ 5 2 [Sample.emma; Sample.persuasion] g'
           Gutendex.Taken).
  vm_compute; reflexivity.
Defined.
